(** * webutil.py: request plumbing of the REST server, embedded in Rocq

    The module [py/webutil.py] holds the Flask request hooks
    ([before_request], [after_request], [teardown], [page_not_found]), the
    decorators [login_required] and [local_dev_only], the reply helpers
    [error_reply] and [warn_reply], the logging filter and the JSON encoder.

    Python values are embedded as inductive types, the ambient objects of
    Flask ([request], [session], [g]), the logger and the database handle as
    an explicit [World] that every function threads, and exceptions as a
    [result] type.  The collaborators that live outside the module ([db],
    [config], the clock and [str] of a float) are parameters. *)

From Stdlib Require Import String Ascii List ZArith Lia Bool Floats DecimalString.
Import ListNotations.
Open Scope string_scope.
Set Warnings "-register-all".

(* ------------------------------------------------------------------ *)
(** ** Exceptions and results *)

Inductive exn : Type :=
| TypeError
| AttributeError
| NameError (name : string)
| LookupFailed
| HTTPException (code : Z)
| HandlerError (what : string).

Inductive result (A : Type) : Type :=
| Ret (a : A)
| Raise (e : exn).
Arguments Ret {A} a.
Arguments Raise {A} e.

Definition bind {A B : Type} (r : result A) (f : A -> result B) : result B :=
  match r with
  | Ret a => f a
  | Raise e => Raise e
  end.

Notation "x <- r ;; k" := (bind r (fun x => k))
  (at level 61, r at next level, right associativity).

(* ------------------------------------------------------------------ *)
(** ** Python strings

    A Python [str] is a Rocq [string]; one [ascii] stands for one character
    (code points below 256). *)

Definition dquote : ascii := ascii_of_nat 34.
Definition squote : ascii := ascii_of_nat 39.
Definition backslash : ascii := ascii_of_nat 92.

Definition str1 (c : ascii) : string := String c EmptyString.

(** [s[:n]] *)
Definition slice_to (n : nat) (s : string) : string := substring 0 n s.

(** [needle in hay] for two strings. *)
Fixpoint str_contains (needle hay : string) : bool :=
  if prefix needle hay then true
  else match hay with
       | EmptyString => false
       | String _ rest => str_contains needle rest
       end.

Fixpoint has_char (c : ascii) (s : string) : bool :=
  match s with
  | EmptyString => false
  | String d rest => Ascii.eqb c d || has_char c rest
  end.

(** [str(n)] of an integer. *)
Definition str_int (z : Z) : string := NilZero.string_of_int (Z.to_int z).

Definition hex_digit (n : nat) : ascii :=
  nth n (list_ascii_of_string "0123456789abcdef") "0"%char.

(** One character of [repr(s)], [q] being the quote [repr] has chosen. *)
Definition repr_char (q c : ascii) : string :=
  let n := nat_of_ascii c in
  if Ascii.eqb c q then String backslash (str1 c)
  else if Ascii.eqb c backslash then String backslash (str1 backslash)
  else if (n =? 9)%nat then String backslash "t"
  else if (n =? 10)%nat then String backslash "n"
  else if (n =? 13)%nat then String backslash "r"
  else if (n <? 32)%nat || (n =? 127)%nat
          || ((128 <=? n)%nat && (n <=? 160)%nat) || (n =? 173)%nat
       then String backslash
              (String "x" (String (hex_digit (n / 16)) (str1 (hex_digit (n mod 16)))))
  else str1 c.

Fixpoint repr_chars (q : ascii) (s : string) : string :=
  match s with
  | EmptyString => EmptyString
  | String c rest => repr_char q c ++ repr_chars q rest
  end.

(** [repr(s)] of a string: single quotes, unless the string holds a single
    quote and no double quote. *)
Definition repr_str (s : string) : string :=
  let q := if has_char squote s && negb (has_char dquote s) then dquote else squote in
  String q (repr_chars q s ++ str1 q).

Fixpoint join (sep : string) (l : list string) : string :=
  match l with
  | [] => EmptyString
  | x :: r => match r with
              | [] => x
              | _ => x ++ sep ++ join sep r
              end
  end.

(* ------------------------------------------------------------------ *)
(** ** Request parameters: parsed JSON and werkzeug multi-dicts *)

(** What [request.json] can hold; [JNull] is Python's [None], also the
    value of [request.json] when the request carries no JSON. *)
Inductive json : Type :=
| JNull
| JBool (b : bool)
| JInt (z : Z)
| JFloat (f : float)
| JStr (s : string)
| JList (l : list json)
| JDict (d : list (string * json)).

(** A werkzeug [MultiDict]: a dict from a key to the list of its values,
    in insertion order of the keys. *)
Definition multidict : Type := list (string * list string).

(** The object bound to [params] in [before_request]. [request.args] and
    [request.form] are [ImmutableMultiDict]s; their [copy()] is a
    [MultiDict]. *)
Inductive params : Type :=
| PJson (j : json)
| PImmMulti (m : multidict)
| PMulti (m : multidict).

(** Python dicts as association lists in insertion order. *)
Fixpoint dict_has {V : Type} (k : string) (d : list (string * V)) : bool :=
  match d with
  | [] => false
  | (k', _) :: r => String.eqb k' k || dict_has k r
  end.

Fixpoint dict_get {V : Type} (k : string) (d : list (string * V)) : option V :=
  match d with
  | [] => None
  | (k', v) :: r => if String.eqb k' k then Some v else dict_get k r
  end.

(** [d[k] = v]: an existing key keeps its place, a new one goes last. *)
Fixpoint dict_set {V : Type} (k : string) (v : V) (d : list (string * V))
  : list (string * V) :=
  match d with
  | [] => [(k, v)]
  | (k', v') :: r =>
      if String.eqb k' k then (k', v) :: r else (k', v') :: dict_set k v r
  end.

(** The keys of a Python dict are distinct. *)
Definition dict_wf {V : Type} (d : list (string * V)) : Prop :=
  NoDup (map fst d).

(** Truth value of a parameter object. *)
Definition json_truthy (j : json) : bool :=
  match j with
  | JNull => false
  | JBool b => b
  | JInt z => negb (z =? 0)%Z
  | JFloat f => negb (PrimFloat.eqb f 0%float)
  | JStr s => negb (String.eqb s "")
  | JList l => match l with [] => false | _ => true end
  | JDict d => match d with [] => false | _ => true end
  end.

Definition truthy (p : params) : bool :=
  match p with
  | PJson j => json_truthy j
  | PImmMulti m | PMulti m => match m with [] => false | _ => true end
  end.

(** [a or b] *)
Definition py_or (a b : params) : params := if truthy a then a else b.

(** [k in params] *)
Definition contains (k : string) (p : params) : result bool :=
  match p with
  | PJson (JDict d) => Ret (dict_has k d)
  | PJson (JList l) =>
      Ret (existsb (fun v => match v with JStr s => String.eqb s k | _ => false end) l)
  | PJson (JStr s) => Ret (str_contains k s)
  | PJson _ => Raise TypeError
  | PImmMulti m | PMulti m => Ret (dict_has k m)
  end.

(** [params.copy()] *)
Definition copy (p : params) : result params :=
  match p with
  | PJson (JDict d) => Ret (PJson (JDict d))
  | PJson (JList l) => Ret (PJson (JList l))
  | PJson _ => Raise AttributeError
  | PImmMulti m | PMulti m => Ret (PMulti m)
  end.

(** [cloned[k] = 'X'] *)
Definition setitem_X (k : string) (p : params) : result params :=
  match p with
  | PJson (JDict d) => Ret (PJson (JDict (dict_set k (JStr "X") d)))
  | PJson _ => Raise TypeError
  | PImmMulti _ => Raise TypeError
  | PMulti m => Ret (PMulti (dict_set k ["X"] m))
  end.

Definition secret_keys : list string := ["password"; "passwd"; "pwd"].

(** The loop [for k in secret_keys] of [before_request]; [cloned] is
    [None] until the first secret key is met. *)
Fixpoint redact_loop (keys : list string) (p : params) (cloned : option params)
  : result (option params) :=
  match keys with
  | [] => Ret cloned
  | k :: rest =>
      found <- contains k p ;;
      if found then
        c <- match cloned with
             | Some c => if truthy c then Ret c else copy p
             | None => copy p
             end ;;
        c' <- setitem_X k c ;;
        redact_loop rest p (Some c')
      else redact_loop rest p cloned
  end.

(** Lines 99-108: the object [params] is bound to after the redaction. *)
Definition redact_params (p : params) : result params :=
  if truthy p then
    cloned <- redact_loop secret_keys p None ;;
    match cloned with
    | Some c => if truthy c then Ret c else Ret p
    | None => Ret p
    end
  else Ret p.

(** Lines 98-108: the parameter object that is logged. *)
Definition logged_params_obj (rjson : json) (args form : multidict)
  : result params :=
  redact_params (py_or (py_or (PJson rjson) (PImmMulti args)) (PImmMulti form)).

(* ------------------------------------------------------------------ *)
(** ** The world the module runs in *)

Inductive level : Type := INFO | WARNING | ERROR.

(** What the module does to the outside, in order: entries written through
    the module's logger [log], calls on the database handle, the clearing of
    the session, and the framework calling the view function of the route. *)
Inductive event : Type :=
| Log (l : level) (msg : string)
| DbConnection
| DbClose
| SessionClear
| ViewCalled.

(** Modelled from the spec: the user record of [db.py], which is not part
    of the sources. The module reads its [role] attribute and formats it
    with [str]; an instance is a plain object, so it is true in a
    condition. *)
Record User : Type := mkUser {
  role : string;
  user_str : string
}.

(** Modelled from the spec: the two entry points of [db.py] the module
    calls, the lookup of a user by id (which raises when there is no such
    record) and the role comparison of the user record (its hierarchy is
    defined there). *)
Record Db : Type := mkDb {
  get_user : string -> result User;
  is_role_atleast : User -> option string -> bool
}.

(** The two flags of [config.py] the module reads. *)
Record Config : Type := mkConfig {
  IS_LOCAL_DEV : bool;
  IS_PRODUCTION : bool
}.

(** Flask's [g]: an attribute is [None] until it is assigned. [g_MYSELF]
    and [g_IS_SUPER_USER] can hold Python's [None], the inner [option]. *)
Record G : Type := mkG {
  g_db : bool;
  g_HOST : option string;
  g_MYSELF : option (option User);
  g_ISLOGGED : option bool;
  g_IS_SUPER_USER : option (option bool);
  g_t1 : option float
}.

Definition empty_g : G := mkG false None None None None None.

Record World : Type := mkWorld {
  session : list (string * string);
  g : G;
  trace : list event;
  db_open : bool;
  clock : float
}.

Record Request : Type := mkRequest {
  method : string;
  path : string;
  url : string;
  rjson : json;
  args : multidict;
  form : multidict;
  headers : list (string * string);
  remote_addr : option string
}.

(** The tuple [(jsonify(body), code)] a hook or view returns. *)
Record reply : Type := mkReply {
  body : list (string * string);
  code : Z
}.

(** What a view function returns. *)
Inductive rv : Type :=
| RvNone
| RvStr (s : string)
| RvTuple (r : reply).

Inductive resp_body : Type :=
| BJson (d : list (string * string))
| BText (s : string)
| BDefault.

(** A Flask response object. *)
Record Response : Type := mkResponse {
  data : resp_body;
  status_code : Z
}.

(** State and exceptions. *)
Definition M (A : Type) : Type := World -> result A * World.

Definition ret {A : Type} (a : A) : M A := fun w => (Ret a, w).
Definition raise {A : Type} (e : exn) : M A := fun w => (Raise e, w).
Definition lift {A : Type} (r : result A) : M A := fun w => (r, w).

Definition mbind {A B : Type} (m : M A) (f : A -> M B) : M B :=
  fun w => match m w with
           | (Ret a, w') => f a w'
           | (Raise e, w') => (Raise e, w')
           end.

Notation "x <-- m ;;; k" := (mbind m (fun x => k))
  (at level 61, m at next level, right associativity).
Notation "m ;;; k" := (mbind m (fun _ => k))
  (at level 61, right associativity).

Definition emit (e : event) : M unit :=
  fun w => (Ret tt, mkWorld (session w) (g w) (trace w ++ [e]) (db_open w) (clock w)).

Definition set_g (f : G -> G) : M unit :=
  fun w => (Ret tt, mkWorld (session w) (f (g w)) (trace w) (db_open w) (clock w)).

Definition get_g : M G := fun w => (Ret (g w), w).
Definition get_session : M (list (string * string)) := fun w => (Ret (session w), w).

(** [time.time()] *)
Definition time_time : M float := fun w => (Ret (clock w), w).

(** [session.clear()] *)
Definition session_clear : M unit :=
  fun w => (Ret tt, mkWorld [] (g w) (trace w ++ [SessionClear]) (db_open w) (clock w)).

(** [g.db.connection()] and [g.db.close()] on the handle [db.database]. *)
Definition db_connection : M unit :=
  fun w => (Ret tt, mkWorld (session w) (g w) (trace w ++ [DbConnection]) true (clock w)).

Definition db_close : M unit :=
  fun w => (Ret tt, mkWorld (session w) (g w) (trace w ++ [DbClose]) false (clock w)).

Definition log_info (msg : string) : M unit := emit (Log INFO msg).
Definition log_warning (msg : string) : M unit := emit (Log WARNING msg).
Definition log_error (msg : string) : M unit := emit (Log ERROR msg).

(** The names the top level of the module binds: its imports, [log],
    [app] and its own definitions. A global name outside this list (and
    outside the builtins) raises [NameError] when it is read. *)
Definition module_globals : list string :=
  [ "time"; "peewee"; "functools"; "Flask"; "request"; "session"; "g";
    "redirect"; "abort"; "jsonify"; "Session"; "JSONEncoder"; "db"; "config";
    "datetime"; "logging"; "log"; "app"; "login_required"; "local_dev_only";
    "_check_user_role"; "error_reply"; "warn_reply"; "get_agent"; "get_ip";
    "before_request"; "after_request"; "teardown"; "page_not_found";
    "MyLogContextFilter"; "init_logging"; "MyJSONEncoder" ].

Definition load_global (name : string) : M unit :=
  if existsb (String.eqb name) module_globals then ret tt
  else raise (NameError name).

(** [request.headers.get(name)] *)
Definition headers_get (req : Request) (name : string) : option string :=
  dict_get name (headers req).

(* ------------------------------------------------------------------ *)
(** ** The module *)

Section WebUtil.

(** The module [db], the module [config], and [str] of a float, which
    come from outside the module. *)
Variable db : Db.
Variable config : Config.
Variable str_float : float -> string.

(** [repr] of a parsed JSON value. *)
Fixpoint repr (j : json) : string :=
  match j with
  | JNull => "None"
  | JBool true => "True"
  | JBool false => "False"
  | JInt z => str_int z
  | JFloat f => str_float f
  | JStr s => repr_str s
  | JList l => "[" ++ join ", " (map repr l) ++ "]"
  | JDict d =>
      "{" ++ join ", " (map (fun kv => repr_str (fst kv) ++ ": " ++ repr (snd kv)) d) ++ "}"
  end.

(** [items(multi=True)] of a multi-dict. *)
Definition items_multi (m : multidict) : list (string * string) :=
  flat_map (fun kv => map (fun v => (fst kv, v)) (snd kv)) m.

Definition repr_items (m : multidict) : string :=
  "[" ++ join ", "
           (map (fun kv => "(" ++ repr_str (fst kv) ++ ", " ++ repr_str (snd kv) ++ ")")
                (items_multi m)) ++ "]".

(** [str(params)]: a string is itself, everything else is its [repr]. *)
Definition py_str (p : params) : string :=
  match p with
  | PJson (JStr s) => s
  | PJson j => repr j
  | PImmMulti m => "ImmutableMultiDict(" ++ repr_items m ++ ")"
  | PMulti m => "MultiDict(" ++ repr_items m ++ ")"
  end.

(** Line 110: [str(params or '')[:1000]]. *)
Definition params_string (p : params) : string :=
  slice_to 1000 (if truthy p then py_str p else "").

(** Lines 97-112: the line [before_request] writes to the log. *)
Definition request_log_line (req : Request) : result string :=
  p <- logged_params_obj (rjson req) (args req) (form req) ;;
  Ret (slice_to 2 (method req) ++ " " ++ path req ++ " " ++ params_string p).

(** [jsonify({"err": "{}: {}".format(httpcode, errmsg)}), httpcode] *)
Definition err_reply (errmsg : string) (httpcode : Z) : reply :=
  mkReply [("err", str_int httpcode ++ ": " ++ errmsg)] httpcode.

Definition error_reply (errmsg : string) (httpcode : Z) : M reply :=
  log_error errmsg ;;; ret (err_reply errmsg httpcode).

Definition warn_reply (errmsg : string) (httpcode : Z) : M reply :=
  log_warning errmsg ;;; ret (err_reply errmsg httpcode).

(** [get_agent] and [get_ip]; the value of [get_ip] can be [None]. *)
Definition get_agent (req : Request) : string :=
  match headers_get req "User-Agent" with
  | Some a => a
  | None => ""
  end.

Definition get_ip (req : Request) : option string :=
  match headers_get req "X-Real-IP" with
  | Some ip => if String.eqb ip "" then remote_addr req else Some ip
  | None => remote_addr req
  end.

(** [str(g.MYSELF)] *)
Definition str_myself (me : option User) : string :=
  match me with
  | Some u => user_str u
  | None => "None"
  end.

Definition _check_user_role (req : Request) (r : option string) : M (option reply) :=
  gv <-- get_g ;;;
  match g_MYSELF gv with
  | None => raise AttributeError
  | Some me =>
      let ok := match me with
                | None => false
                | Some u => is_role_atleast db u r
                end in
      if negb ok then
        rep <-- warn_reply ("Unauthorized! " ++ method req ++ " " ++ path req
                            ++ " user=" ++ str_myself me) 401 ;;;
        ret (Some rep)
      else ret None
  end.

(** A view function: the keyword arguments of the route, then the world. *)
Definition view : Type := list (string * string) -> M rv.

(** The function [inner] that [login_required] builds. *)
Definition login_inner (req : Request) (func : view) (r : option string) : view :=
  fun kwargs =>
    chk <-- _check_user_role req r ;;;
    match chk with
    | Some rep => ret (RvTuple rep)
    | None => func kwargs
    end.

(** [login_required(func=None, role=None)] gives a decorator waiting for
    its function when [func] is missing, the wrapped view otherwise. *)
Inductive decorated : Type :=
| Partial (r : option string)
| Wrapped (v : view).

Definition login_required (req : Request) (func : option view) (r : option string)
  : decorated :=
  match func with
  | None => Partial r
  | Some f => Wrapped (login_inner req f r)
  end.

(** Calling the [functools.partial] on the view below the decorator. *)
Definition decorate (req : Request) (d : decorated) (f : view) : decorated :=
  match d with
  | Partial r => login_required req (Some f) r
  | Wrapped v => Wrapped v
  end.

Definition local_dev_only (func : view) : view :=
  fun kwargs => if IS_LOCAL_DEV config then func kwargs else ret (RvStr "").

(** Lines 122-130: the user of the session. [Some rep] is an early
    return of the hook. *)
Definition load_user : M (option reply * option User) :=
  set_g (fun gv => mkG (g_db gv) (g_HOST gv) (Some None) (g_ISLOGGED gv)
                       (g_IS_SUPER_USER gv) (g_t1 gv)) ;;;
  s <-- get_session ;;;
  match dict_get "userid" s with
  | None => ret (None, None)
  | Some uid =>
      match get_user db uid with
      | Ret u =>
          set_g (fun gv => mkG (g_db gv) (g_HOST gv) (Some (Some u)) (g_ISLOGGED gv)
                               (g_IS_SUPER_USER gv) (g_t1 gv)) ;;;
          ret (None, Some u)
      | Raise _ =>
          session_clear ;;;
          load_global "webutil" ;;;
          rep <-- error_reply "unknown uid" 400 ;;;
          ret (Some rep, None)
      end
  end.

Definition before_request (req : Request) : M (option reply) :=
  line <-- lift (request_log_line req) ;;;
  log_info line ;;;
  set_g (fun gv => mkG true (g_HOST gv) (g_MYSELF gv) (g_ISLOGGED gv)
                       (g_IS_SUPER_USER gv) (g_t1 gv)) ;;;
  db_connection ;;;
  set_g (fun gv => mkG (g_db gv)
                       (Some match headers_get req "X-Real-Host" with
                             | Some h => h
                             | None => ""
                             end)
                       (g_MYSELF gv) (g_ISLOGGED gv) (g_IS_SUPER_USER gv) (g_t1 gv)) ;;;
  lu <-- load_user ;;;
  match lu with
  | (Some rep, _) => ret (Some rep)
  | (None, me) =>
      set_g (fun gv => mkG (g_db gv) (g_HOST gv) (g_MYSELF gv)
                           (Some match me with Some _ => true | None => false end)
                           (Some match me with
                                 | Some u => Some (String.eqb (role u) "superuser")
                                 | None => None
                                 end)
                           (g_t1 gv)) ;;;
      if match me with
         | Some u => String.eqb (role u) "disabled"
         | None => false
         end
      then
        log_warning "account disabled" ;;;
        ret (Some (mkReply [("err", "account disabled")] 400))
      else
        t <-- time_time ;;;
        set_g (fun gv => mkG (g_db gv) (g_HOST gv) (g_MYSELF gv) (g_ISLOGGED gv)
                             (g_IS_SUPER_USER gv) (Some t)) ;;;
        ret None
  end.

(** The level [after_request] logs at, if any. *)
Definition logmethod (sc : Z) : option level :=
  if (400 <=? sc)%Z && (sc <=? 599)%Z then Some ERROR
  else if negb ((200 <=? sc)%Z && (sc <? 399)%Z) then Some WARNING
  else None.

Definition after_request (req : Request) (response : Response) : M Response :=
  match logmethod (status_code response) with
  | Some l =>
      emit (Log l ("  " ++ str_int (status_code response) ++ " " ++ method req
                   ++ " " ++ url req))
  | None => ret tt
  end ;;;
  ret response.

Definition teardown (req : Request) (error : option exn) : M unit :=
  gv <-- get_g ;;;
  (if g_db gv then db_close else ret tt) ;;;
  match g_t1 gv with
  | Some t1 =>
      now <-- time_time ;;;
      let delta := PrimFloat.sub now t1 in
      if PrimFloat.ltb 1%float delta
      then log_warning ("SLOW! " ++ path req ++ " time=" ++ str_float delta)
      else ret tt
  | None => ret tt
  end.

Definition page_not_found (req : Request) (error : exn) : M reply :=
  ret (mkReply [("err", "404: " ++ path req)] 404).

(* ------------------------------------------------------------------ *)
(** ** The request cycle of the framework

    How Flask drives the hooks ([Flask.wsgi_app],
    [full_dispatch_request]): a fresh [g], the before-request hook, the view
    unless the hook returned a value, the after-request hook on the
    response, and the teardown hook in every case. *)

Definition make_response (v : rv) : result Response :=
  match v with
  | RvNone => Raise TypeError
  | RvStr s => Ret (mkResponse (BText s) 200)
  | RvTuple r => Ret (mkResponse (BJson (body r)) (code r))
  end.

(** A request that matches no route raises [NotFound] here. *)
Definition dispatch_request (route : option view) (kwargs : list (string * string))
  : M rv :=
  match route with
  | None => raise (HTTPException 404)
  | Some v => emit ViewCalled ;;; v kwargs
  end.

(** The 404 handler is the one the module registers; other HTTP
    exceptions become their own response, anything else is raised again. *)
Definition handle_user_exception (req : Request) (e : exn) : M Response :=
  match e with
  | HTTPException c =>
      if (c =? 404)%Z then
        rep <-- page_not_found req e ;;;
        lift (make_response (RvTuple rep))
      else ret (mkResponse BDefault c)
  | _ => raise e
  end.

Definition full_dispatch_request (route : option view)
  (kwargs : list (string * string)) (req : Request) : M Response :=
  fun w =>
    match (early <-- before_request req ;;;
           match early with
           | Some rep => ret (RvTuple rep)
           | None => dispatch_request route kwargs
           end) w with
    | (Ret v, w1) =>
        (resp <-- lift (make_response v) ;;; after_request req resp) w1
    | (Raise e, w1) =>
        (resp <-- handle_user_exception req e ;;; after_request req resp) w1
    end.

(** Every request starts with a [g] of its own. *)
Definition push_context (w : World) : World :=
  mkWorld (session w) empty_g (trace w) (db_open w) (clock w).

Definition wsgi_app (route : option view) (kwargs : list (string * string))
  (req : Request) (w : World) : Response * World :=
  match full_dispatch_request route kwargs req (push_context w) with
  | (Ret resp, w1) => (resp, snd (teardown req None w1))
  | (Raise e, w1) =>
      match after_request req (mkResponse BDefault 500) w1 with
      | (Ret resp, w2) => (resp, snd (teardown req (Some e) w2))
      | (Raise _, w2) => (mkResponse BDefault 500, snd (teardown req (Some e) w2))
      end
  end.

(* ------------------------------------------------------------------ *)
(** ** The logging filter *)

Record LogRecord : Type := mkLogRecord {
  rec_msg : string;
  rec_ip : option string;
  rec_uid : string
}.

(** [MyLogContextFilter.filter]; [ctx] is the request and its session
    when a request is being served, [None] in a background worker. *)
Definition filter (ctx : option (Request * list (string * string)))
  (record : LogRecord) : bool * LogRecord :=
  let '(ip, uid) :=
    match ctx with
    | Some (req, sess) =>
        (get_ip req,
         match dict_get "userid" sess with
         | Some u => u
         | None => "anon"
         end)
    | None => (Some "", "  -WORKER")
    end in
  (true,
   mkLogRecord (rec_msg record)
               (if IS_LOCAL_DEV config then Some "local" else ip)
               uid).

(** The format string [init_logging] hands to [logging.basicConfig]. *)
Definition log_format : string :=
  (if IS_PRODUCTION config then "PROD " else "")
  ++ "%(levelname)3.3s %(uid)s@%(ip)s %(asctime)s %(filename)s %(message)s".

(* ------------------------------------------------------------------ *)
(** ** The JSON encoder *)

(** A [datetime.datetime] object, with what its [isoformat()] returns. *)
Record datetime : Type := mkDatetime {
  isoformat : string
}.

(** The truth value of a [datetime] object in a condition: the class
    defines neither [__bool__] nor [__len__], so every instance is true. *)
Definition datetime_truthy (d : datetime) : bool := true.

(** The objects [default] tells apart by class: a [peewee.SelectQuery]
    with the rows it yields, a [db.BaseModel] with what its [serialize()]
    returns, a [datetime], Python's [None] (no [datetime], so an absent
    timestamp is not one), and an object of any other class. *)
Inductive pyobj : Type :=
| OSelectQuery (rows : list pyobj)
| OModel (serialized : json)
| ODatetime (d : datetime)
| ONone
| OOther (cls : string).

(** What [default] hands back to the encoder. *)
Inductive encodable : Type :=
| EList (l : list pyobj)
| EJson (j : json)
| EStr (s : string)
| ENone.

(** [JSONEncoder.default] of the framework. *)
Variable JSONEncoder_default : pyobj -> result encodable.

Definition default (obj : pyobj) : result encodable :=
  match obj with
  | OSelectQuery rows => Ret (EList rows)
  | OModel ser => Ret (EJson ser)
  | ODatetime d => Ret (if datetime_truthy d then EStr (isoformat d) else ENone)
  | ONone | OOther _ => JSONEncoder_default obj
  end.

End WebUtil.

(* ------------------------------------------------------------------ *)
(** * Properties *)

(** A reply has the error shape when its body is
    [{"err": "<code>: <message>"}], [<code>] being its own status code. *)
Definition err_shape (r : reply) : Prop :=
  exists msg, body r = [("err", str_int (code r) ++ ": " ++ msg)].

(** The world after one more event. *)
Definition logged (e : event) (w : World) : World :=
  mkWorld (session w) (g w) (trace w ++ [e]) (db_open w) (clock w).

(** How many times the framework called the view. *)
Definition view_calls (t : list event) : nat :=
  List.length (List.filter (fun e => match e with ViewCalled => true | _ => false end) t).

(** A key whose value the hook hides. *)
Definition is_secret (k : string) : bool := existsb (String.eqb k) secret_keys.





(** [request.json or request.args or request.form] *)
Definition selected_params (r : Request) : params :=
  py_or (py_or (PJson (rjson r)) (PImmMulti (args r))) (PImmMulti (form r)).

(** [k] is a key of the dict or multi-dict [p]. *)
Definition has_key (k : string) (p : params) : bool :=
  match p with
  | PJson (JDict d) => dict_has k d
  | PJson _ => false
  | PImmMulti m | PMulti m => dict_has k m
  end.




(** What the loop makes of one entry, and of a dict. *)
Definition mask_entry {V : Type} (x : V) (e : string * V) (k : string) : string * V :=
  if String.eqb (fst e) k then (fst e, x) else e.

Definition mask {V : Type} (x : V) (d : list (string * V)) (k : string)
  : list (string * V) :=
  map (fun e => mask_entry x e k) d.

Definition mask_all {V : Type} (x : V) (ks : list string) (d : list (string * V))
  : list (string * V) :=
  fold_left (mask x) ks d.

(** The value [before_request] gives [g.HOST]. *)
Definition host_of (req : Request) : string :=
  match headers_get req "X-Real-Host" with
  | Some h => h
  | None => ""
  end.

(** The world once the hook has logged the request, opened the database
    and cleared [g.MYSELF] (lines 112-123). *)
Definition after_connect (req : Request) (line : string) (w : World) : World :=
  mkWorld (session w)
          (mkG true (Some (host_of req)) (Some None) (g_ISLOGGED (g w))
               (g_IS_SUPER_USER (g w)) (g_t1 (g w)))
          ((trace w ++ [Log INFO line]) ++ [DbConnection]) true (clock w).

(* ------------------------------------------------------------------ *)
(** ** Sample data for the concrete runs *)

(** A small user table: the lookup raises for an id that is not in it; a
    user has at least a role when it is that role or "superuser". *)
Definition sample_users : list (string * User) :=
  [ ("1", mkUser "user" "<User 1>");
    ("2", mkUser "disabled" "<User 2>");
    ("3", mkUser "superuser" "<User 3>") ].

Definition sample_db : Db :=
  mkDb (fun uid => match dict_get uid sample_users with
                   | Some u => Ret u
                   | None => Raise LookupFailed
                   end)
       (fun u r => match r with
                   | None => negb (String.eqb (role u) "disabled")
                   | Some r' => String.eqb (role u) r' || String.eqb (role u) "superuser"
                   end).

Definition sample_str_float (f : float) : string :=
  if PrimFloat.eqb f 2%float then "2.0" else "<float>".

Definition sample_request (m p : string) (j : json) : Request :=
  mkRequest m p ("http://localhost" ++ p) j [] [] [] (Some "127.0.0.1").

Definition sample_world (sess : list (string * string)) : World :=
  mkWorld sess empty_g [] false 0%float.

(** The default of [json.JSONEncoder]: it raises [TypeError] for every
    object it is asked about. *)
Definition json_default_raises : pyobj -> result encodable :=
  fun _ => Raise TypeError.

Fixpoint str_repeat (n : nat) (c : ascii) : string :=
  match n with
  | O => EmptyString
  | S n' => String c (str_repeat n' c)
  end.

(** A search whose parameter is 1200 characters long. *)
Definition long_search : Request :=
  sample_request "POST" "/api/search" (JDict [("q", JStr (str_repeat 1200 "x"))]).

Definition nested_signup (pw : string) : Request :=
  sample_request "POST" "/api/signup" (JDict [("user", JDict [("password", JStr pw)])]).

Definition repeated_signup : Request :=
  sample_request "POST" "/api/signup"
    (JDict [("password", JStr "hunter2"); ("password2", JStr "hunter2")]).

Definition ok_view : view := fun _ => ret (RvStr "ok").
Definition failing_view : view := fun _ => raise (HandlerError "boom").

(** A view that returns when the clock shows 2.0. *)
Definition slow_view : view :=
  fun _ w => (Ret (RvStr "done"),
              mkWorld (session w) (g w) (trace w) (db_open w) 2%float).

Definition slow_world : World :=
  mkWorld [] (mkG true (Some "") (Some None) (Some false) (Some None) (Some 0%float))
          [] true 2%float.


Definition logged_in_world : World :=
  mkWorld [("userid", "3")]
          (mkG true (Some "") (Some (Some (mkUser "superuser" "<User 3>")))
               (Some true) (Some (Some true)) (Some 0%float))
          [] true 0%float.

Definition passed_world (sess : list (string * string)) (line : string) : World :=
  mkWorld sess (mkG true (Some "") (Some None) (Some false) (Some None) (Some 0%float))
          [Log INFO line; DbConnection] true 0%float.

Ltac run :=
  repeat (unfold mbind, ret, raise, lift, emit, set_g, get_g, get_session,
            time_time, session_clear, db_connection, db_close,
            log_info, log_warning, log_error, logged in *;
          cbn [fst snd session g trace db_open clock
               g_db g_HOST g_MYSELF g_ISLOGGED g_IS_SUPER_USER g_t1] in * ).

(* ------------------------------------------------------------------ *)
(** ** The redaction loop on a dict *)

Section Dicts.

Context {V : Type}.
Implicit Types (d c : list (string * V)) (k : string) (x : V).

Lemma dict_has_keys d c k :
  map fst c = map fst d -> dict_has k c = dict_has k d.
Proof.
  revert c. induction d as [|[k1 v1] d IH]; intros [|[k2 v2] c] H;
    try discriminate; [reflexivity|].
  cbn in *. injection H as -> H. rewrite (IH c H). reflexivity.
Qed.

Lemma mask_keys x d k : map fst (mask x d k) = map fst d.
Proof.
  unfold mask. rewrite map_map. apply map_ext. intros [k' v].
  unfold mask_entry. cbn. destruct (String.eqb k' k); reflexivity.
Qed.

Lemma mask_absent x d k : dict_has k d = false -> mask x d k = d.
Proof.
  induction d as [|[k' v] d IH]; cbn; [reflexivity|].
  intros H. apply orb_false_iff in H as [Hk Hd].
  unfold mask_entry at 1. cbn [fst]. rewrite Hk.
  f_equal. apply IH, Hd.
Qed.

Lemma dict_has_In k d : dict_has k d = true -> In k (map fst d).
Proof.
  induction d as [|[k' v] d IH]; cbn; [discriminate|].
  intros H. apply orb_true_iff in H as [H|H].
  - left. apply String.eqb_eq, H.
  - right. apply IH, H.
Qed.

(** On a dict with distinct keys, assigning to a key that is there
    rewrites that entry only. *)
Lemma dict_set_mask x d k :
  dict_wf d -> dict_has k d = true -> dict_set k x d = mask x d k.
Proof.
  unfold dict_wf. induction d as [|[k' v] d IH]; cbn; [discriminate|].
  intros Hnd H. inversion Hnd as [|? ? Hnotin Hnd']; subst.
  unfold mask_entry at 1. cbn [fst].
  destruct (String.eqb k' k) eqn:E.
  - f_equal. symmetry. apply mask_absent.
    apply String.eqb_eq in E. subst k'.
    destruct (dict_has k d) eqn:Hd; [|reflexivity].
    exfalso. apply Hnotin, dict_has_In, Hd.
  - f_equal. apply IH; assumption.
Qed.

Lemma mask_all_keys x ks d : map fst (mask_all x ks d) = map fst d.
Proof.
  unfold mask_all. revert d. induction ks as [|k ks IH]; intros d; cbn;
    [reflexivity|]. rewrite IH. apply mask_keys.
Qed.

(** The whole loop is a map over the entries. *)
Lemma mask_all_map x ks d :
  mask_all x ks d = map (fun e => fold_left (mask_entry x) ks e) d.
Proof.
  unfold mask_all. revert d. induction ks as [|k ks IH]; intros d; cbn.
  - symmetry. apply map_id.
  - rewrite IH. unfold mask. apply map_map.
Qed.





(** The value the loop leaves under a secret key that is there. *)
Lemma mask_all_get x d k :
  In k secret_keys -> dict_has k d = true ->
  dict_get k (mask_all x secret_keys d) = Some x.
Proof.
  intros Hin. rewrite mask_all_map.
  induction d as [|[k' v] d IH]; cbn [dict_has map dict_get]; [discriminate|].
  intros H.
  assert (Hf : fst (fold_left (mask_entry x) secret_keys (k', v)) = k').
  { unfold secret_keys, mask_entry. cbn [fold_left fst].
    destruct (String.eqb k' "password"); cbn [fst];
      destruct (String.eqb k' "passwd"); cbn [fst];
      destruct (String.eqb k' "pwd"); reflexivity. }
  destruct (fold_left (mask_entry x) secret_keys (k', v)) as [k2 v2] eqn:E.
  cbn [fst] in Hf. subst k2.
  destruct (String.eqb k' k) eqn:Ek.
  - apply String.eqb_eq in Ek. subst k'. f_equal.
    unfold secret_keys, mask_entry in E. cbn [fold_left fst] in E.
    cbn in Hin.
    destruct Hin as [<-|[<-|[<-|[]]]]; cbn in E; injection E as <-; reflexivity.
  - apply IH. cbn in H. exact H.
Qed.

(** The loop on a container that behaves like a dict: [wrap] builds the
    original object, [wrap'] its copy. *)
Variable x : V.
Variables wrap wrap' : list (string * V) -> params.
Hypothesis contains_wrap : forall k d, contains k (wrap d) = Ret (dict_has k d).
Hypothesis copy_wrap : forall d, copy (wrap d) = Ret (wrap' d).
Hypothesis setitem_wrap' :
  forall k c, setitem_X k (wrap' c) = Ret (wrap' (dict_set k x c)).
Hypothesis truthy_wrap' :
  forall c, truthy (wrap' c) = match c with [] => false | _ => true end.

Lemma redact_loop_wrap d :
  dict_wf d -> d <> [] ->
  forall ks cur cloned,
    map fst cur = map fst d ->
    (cloned = None /\ cur = d) \/ cloned = Some (wrap' cur) ->
    redact_loop ks (wrap d) cloned
    = Ret (match cloned with
           | None => if existsb (fun k => dict_has k d) ks
                     then Some (wrap' (mask_all x ks cur)) else None
           | Some _ => Some (wrap' (mask_all x ks cur))
           end).
Proof.
  intros Hwf Hne. induction ks as [|k ks IH]; intros cur cloned Hkeys Hcl.
  - cbn. destruct Hcl as [[-> _]| ->]; reflexivity.
  - cbn [redact_loop existsb]. rewrite contains_wrap. cbn [bind].
    assert (Hcur_ne : cur <> []).
    { intros ->. destruct d; [congruence|discriminate]. }
    assert (Hcur_wf : dict_wf cur) by (unfold dict_wf; rewrite Hkeys; exact Hwf).
    destruct (dict_has k d) eqn:Hk.
    + assert (Hc : match cloned with
                   | Some c => if truthy c then Ret c else copy (wrap d)
                   | None => copy (wrap d)
                   end = Ret (wrap' cur)).
      { destruct Hcl as [[-> ->]| ->]; [apply copy_wrap|].
        rewrite truthy_wrap'. destruct cur; [congruence|reflexivity]. }
      rewrite Hc. cbn [bind]. rewrite setitem_wrap'. cbn [bind].
      rewrite dict_set_mask; [|exact Hcur_wf|rewrite (dict_has_keys d cur k Hkeys); exact Hk].
      rewrite (IH (mask x cur k) (Some (wrap' (mask x cur k)))).
      * cbn [orb mask_all fold_left].
        destruct cloned; reflexivity.
      * rewrite mask_keys. exact Hkeys.
      * right. reflexivity.
    + rewrite (IH cur cloned Hkeys Hcl). cbn [orb mask_all fold_left].
      rewrite (mask_absent x cur k);
        [|rewrite (dict_has_keys d cur k Hkeys); exact Hk].
      reflexivity.
Qed.

End Dicts.

Section Properties.

Variable db : Db.
Variable config : Config.
Variable str_float : float -> string.

Lemma error_reply_eq (msg : string) (c : Z) (w : World) :
  error_reply msg c w = (Ret (err_reply msg c), logged (Log ERROR msg) w).
Proof. reflexivity. Qed.

Lemma warn_reply_eq (msg : string) (c : Z) (w : World) :
  warn_reply msg c w = (Ret (err_reply msg c), logged (Log WARNING msg) w).
Proof. reflexivity. Qed.


(** What [_check_user_role] does when [g.MYSELF] is bound. *)
Lemma check_user_role_eq (req : Request) (r : option string) (w : World)
  (me : option User) :
  g_MYSELF (g w) = Some me ->
  _check_user_role db req r w =
    if match me with
       | None => false
       | Some u => is_role_atleast db u r
       end
    then (Ret None, w)
    else
      let msg := "Unauthorized! " ++ method req ++ " " ++ path req
                 ++ " user=" ++ str_myself me in
      (Ret (Some (err_reply msg 401)), logged (Log WARNING msg) w).
Proof.
  intros H. unfold _check_user_role. run. rewrite H.
  destruct me as [u|]; [destruct (is_role_atleast db u r)|]; reflexivity.
Qed.

(** C3. A view wrapped by [login_required] does not run its function when
    [g.MYSELF] holds no user or a user whose role is not at least the
    required one: the wrapped view logs one warning and returns the 401
    error reply, whatever the function is (the result does not depend on
    it), and the framework turns that reply into a response of status
    401 with the JSON body. *)
Theorem login_required_rejects (req : Request) (func : view) (r : option string)
  (kwargs : list (string * string)) (w : World) (me : option User) (v : view) :
  g_MYSELF (g w) = Some me ->
  (me = None \/ exists u, me = Some u /\ is_role_atleast db u r = false) ->
  login_required db req (Some func) r = Wrapped v ->
  exists msg,
    v kwargs w = (Ret (RvTuple (err_reply msg 401)), logged (Log WARNING msg) w)
    /\ make_response (RvTuple (err_reply msg 401))
       = Ret (mkResponse (BJson [("err", "401: " ++ msg)]) 401).
Proof.
  intros Hme Hbad Hv. injection Hv as <-.
  exists ("Unauthorized! " ++ method req ++ " " ++ path req
          ++ " user=" ++ str_myself me).
  split; [|reflexivity].
  unfold login_inner, mbind at 1.
  rewrite (check_user_role_eq req r w me Hme).
  destruct Hbad as [-> | (u & -> & Hu)]; [|rewrite Hu]; reflexivity.
Qed.

(** The four ways through [before_request] once its log line is built:
    no user id in the session, a lookup that raises, a disabled user, any
    other user. *)
Lemma before_request_eq (req : Request) (w : World) (line : string) :
  request_log_line str_float req = Ret line ->
  before_request db str_float req w =
    let w1 := after_connect req line w in
    match dict_get "userid" (session w) with
    | None =>
        (Ret None,
         mkWorld (session w)
                 (mkG true (Some (host_of req)) (Some None) (Some false) (Some None)
                      (Some (clock w)))
                 (trace w1) true (clock w))
    | Some uid =>
        match get_user db uid with
        | Raise _ =>
            (Raise (NameError "webutil"),
             mkWorld [] (g w1) (trace w1 ++ [SessionClear]) true (clock w))
        | Ret u =>
            let g2 := mkG true (Some (host_of req)) (Some (Some u)) (Some true)
                          (Some (Some (String.eqb (role u) "superuser"))) in
            if String.eqb (role u) "disabled" then
              (Ret (Some (mkReply [("err", "account disabled")] 400)),
               mkWorld (session w) (g2 (g_t1 (g w)))
                       (trace w1 ++ [Log WARNING "account disabled"]) true (clock w))
            else
              (Ret None,
               mkWorld (session w) (g2 (Some (clock w))) (trace w1) true (clock w))
        end
    end.
Proof.
  intros Hline. unfold before_request, load_user. run. rewrite Hline. run.
  destruct (dict_get "userid" (session w)) as [uid|]; [|reflexivity].
  destruct (get_user db uid) as [u|e]; run; [|reflexivity].
  destruct (String.eqb (role u) "disabled"); reflexivity.
Qed.

(** When the log line cannot be built the hook raises at once. *)
Lemma before_request_raises_early (req : Request) (w : World) (e : exn) :
  request_log_line str_float req = Raise e ->
  before_request db str_float req w = (Raise e, w).
Proof.
  intros H. unfold before_request. run. rewrite H. reflexivity.
Qed.

Lemma view_calls_app (t1 t2 : list event) :
  view_calls (t1 ++ t2) = view_calls t1 + view_calls t2.
Proof. unfold view_calls. rewrite List.filter_app, List.length_app. reflexivity. Qed.

Lemma after_request_eq (req : Request) (resp : Response) (w : World) :
  after_request req resp w =
    (Ret resp,
     match logmethod (status_code resp) with
     | Some l => logged (Log l ("  " ++ str_int (status_code resp) ++ " "
                                ++ method req ++ " " ++ url req)) w
     | None => w
     end).
Proof.
  unfold after_request. run. destruct (logmethod (status_code resp)); reflexivity.
Qed.

Lemma teardown_eq (req : Request) (err : option exn) (w : World) :
  teardown str_float req err w =
    (Ret tt,
     let w1 := if g_db (g w) then logged DbClose
                                    (mkWorld (session w) (g w) (trace w) false (clock w))
               else w in
     match g_t1 (g w) with
     | Some t1 =>
         if PrimFloat.ltb 1%float (PrimFloat.sub (clock w) t1)
         then logged (Log WARNING ("SLOW! " ++ path req ++ " time="
                                   ++ str_float (PrimFloat.sub (clock w) t1))) w1
         else w1
     | None => w1
     end).
Proof.
  unfold teardown. run.
  destruct (g_db (g w)); run;
    (destruct (g_t1 (g w)) as [t1|]; [|reflexivity]);
    run; destruct (PrimFloat.ltb 1 (PrimFloat.sub (clock w) t1)); reflexivity.
Qed.

(** [teardown] leaves [g] alone and, when [g.db] is set, ends with the
    connection closed. *)
Lemma teardown_closes (req : Request) (err : option exn) (w : World) :
  g (snd (teardown str_float req err w)) = g w
  /\ (g_db (g w) = true -> db_open (snd (teardown str_float req err w)) = false).
Proof.
  rewrite teardown_eq. cbn [snd].
  destruct (g_db (g w)), (g_t1 (g w)) as [t1|];
    try destruct (PrimFloat.ltb 1 (PrimFloat.sub (clock w) t1));
    split; try reflexivity; intros; try discriminate.
Qed.


(** C7. At the end of every request cycle in which [g] holds the database
    handle the before-request hook stores, the connection is closed:
    [teardown] runs on every path of the cycle, also when the view raises
    or the hook itself returns or raises after storing the handle, and
    its first statement closes the connection. *)
Theorem teardown_always_closes_db (route : option view)
  (kwargs : list (string * string)) (req : Request) (w : World) :
  g_db (g (snd (wsgi_app db str_float route kwargs req w))) = true ->
  db_open (snd (wsgi_app db str_float route kwargs req w)) = false.
Proof.
  unfold wsgi_app.
  destruct (full_dispatch_request db str_float route kwargs req _) as [[resp|e] w1].
  - cbn [snd]. destruct (teardown_closes req None w1) as [Hg Hc].
    rewrite Hg. exact Hc.
  - destruct (after_request req _ w1) as [[resp|e'] w2]; cbn [snd];
      destruct (teardown_closes req (Some e) w2) as [Hg Hc];
      rewrite Hg; exact Hc.
Qed.

(** The timer a hook that lets the request through leaves in [g]. *)
Lemma hook_starts_timer (req : Request) (w0 w1 : World) :
  before_request db str_float req w0 = (Ret None, w1) ->
  g_t1 (g w1) = Some (clock w0) /\ clock w1 = clock w0.
Proof.
  intros H.
  destruct (request_log_line str_float req) as [line|e] eqn:Hline.
  - rewrite (before_request_eq req w0 line Hline) in H. cbn zeta in H.
    destruct (dict_get "userid" (session w0)) as [uid|].
    + destruct (get_user db uid) as [u|e]; [|discriminate].
      destruct (String.eqb (role u) "disabled"); [discriminate|].
      injection H as <-. split; reflexivity.
    + injection H as <-. split; reflexivity.
  - rewrite (before_request_raises_early req w0 e Hline) in H. discriminate.
Qed.

(** C8. The timer [g.t1] is the clock at the end of a before-request hook
    that lets the request through.  With the timer set, [teardown] appends
    exactly one warning "SLOW! <path> time=<elapsed>" when the clock minus
    the timer is greater than 1.0, and no log entry at all otherwise (the
    only other thing it appends is the closing of the database). *)
Theorem slow_request_warning (req : Request) (err : option exn) (w : World)
  (t1 : float) :
  g_t1 (g w) = Some t1 ->
  (forall w0 w1, before_request db str_float req w0 = (Ret None, w1) ->
                 g_t1 (g w1) = Some (clock w0) /\ clock w1 = clock w0)
  /\ trace (snd (teardown str_float req err w))
     = ((trace w ++ (if g_db (g w) then [DbClose] else []))
        ++ (if PrimFloat.ltb 1%float (PrimFloat.sub (clock w) t1)
            then [Log WARNING ("SLOW! " ++ path req ++ " time="
                               ++ str_float (PrimFloat.sub (clock w) t1))]
            else []))%list.
Proof.
  intros Ht1. split.
  - intros w0 w1 H. exact (hook_starts_timer req w0 w1 H).
  - rewrite teardown_eq, Ht1. cbn [snd].
    destruct (g_db (g w)), (PrimFloat.ltb 1 (PrimFloat.sub (clock w) t1));
      unfold logged; cbn [trace]; rewrite ?app_nil_r; reflexivity.
Qed.

(** C6. A response of status 399, a code of the 3xx class, makes
    [after_request] write a warning: the test [200 <= code < 399] stops one
    short of the class. *)
Theorem after_request_399_warns (req : Request) (w : World) (d : resp_body) :
  after_request req (mkResponse d 399) w
  = (Ret (mkResponse d 399),
     logged (Log WARNING ("  399 " ++ method req ++ " " ++ url req)) w).
Proof. rewrite after_request_eq. reflexivity. Qed.

(** C9 (as amended). [default] returns the rows of a query result in
    their order, what [serialize()] gives for a model instance, and the ISO
    string of every timestamp object: such an object is always true, so
    the [None] of line 231 is never returned. An absent timestamp, Python's
    [None], is no [datetime]: like every other object it gets what the
    default of the framework's encoder gives, and [default] yields [None]
    only where that default does. *)
Theorem encoder_default_cases (fallback : pyobj -> result encodable) :
  (forall rows, default fallback (OSelectQuery rows) = Ret (EList rows))
  /\ (forall ser, default fallback (OModel ser) = Ret (EJson ser))
  /\ (forall d, default fallback (ODatetime d) = Ret (EStr (isoformat d)))
  /\ default fallback ONone = fallback ONone
  /\ (forall cls, default fallback (OOther cls) = fallback (OOther cls))
  /\ (forall obj, default fallback obj = Ret ENone -> fallback obj = Ret ENone).
Proof.
  repeat split.
  intros obj H. destruct obj as [rows|ser|d| |cls]; cbn in H;
    try discriminate H; exact H.
Qed.

Lemma slice_to_length (n : nat) (s : string) :
  String.length (slice_to n s) = Nat.min n (String.length s).
Proof.
  unfold slice_to. revert s. induction n as [|n IH]; intros s.
  - destruct s; reflexivity.
  - destruct s as [|c s]; cbn; [reflexivity|]. rewrite IH. reflexivity.
Qed.

Lemma slice_to_prefix (n : nat) (s : string) :
  exists rest, s = slice_to n s ++ rest.
Proof.
  unfold slice_to. revert s. induction n as [|n IH]; intros s.
  - exists s. destruct s; reflexivity.
  - destruct s as [|c s]; [exists EmptyString; reflexivity|].
    destruct (IH s) as [rest Hrest]. exists rest. cbn. rewrite <- Hrest.
    reflexivity.
Qed.

(** C10. The line the before-request hook writes is the first two
    characters of the method, the path, and [str] of the parameter object
    ([''] when that object is false) cut after its first 1000 characters;
    it is the first thing the hook appends to the log, and two requests
    that differ only in their methods beyond the second character (GET is
    "GE") are logged as the same line. *)
Theorem request_log_line_shape (req : Request) (line : string) (w : World) :
  request_log_line str_float req = Ret line ->
  exists p,
    logged_params_obj (rjson req) (args req) (form req) = Ret p
    /\ line = slice_to 2 (method req) ++ " " ++ path req ++ " "
              ++ slice_to 1000 (if truthy p then py_str str_float p else "")
    /\ String.length (slice_to 1000 (if truthy p then py_str str_float p else ""))
       = Nat.min 1000 (String.length (if truthy p then py_str str_float p else ""))
    /\ (exists rest, (if truthy p then py_str str_float p else "")
                     = slice_to 1000 (if truthy p then py_str str_float p else "")
                       ++ rest)
    /\ String.length (slice_to 2 (method req))
       = Nat.min 2 (String.length (method req))
    /\ (exists rest, method req = slice_to 2 (method req) ++ rest)
    /\ slice_to 2 "GET" = "GE"
    /\ (exists rest, trace (snd (before_request db str_float req w))
                     = (trace w ++ Log INFO line :: rest)%list)
    /\ (forall req2, slice_to 2 (method req2) = slice_to 2 (method req) ->
                     path req2 = path req -> rjson req2 = rjson req ->
                     args req2 = args req -> form req2 = form req ->
                     request_log_line str_float req2 = Ret line).
Proof.
  intros Hline. pose proof Hline as Hline'. unfold request_log_line in Hline'.
  destruct (logged_params_obj (rjson req) (args req) (form req)) as [p|e] eqn:Hp;
    [|discriminate].
  cbn [bind] in Hline'. injection Hline' as Hl. unfold params_string in Hl.
  exists p. split; [reflexivity|]. split; [symmetry; exact Hl|].
  split; [apply slice_to_length|]. split; [apply slice_to_prefix|].
  split; [apply slice_to_length|]. split; [apply slice_to_prefix|].
  split; [reflexivity|]. split.
  - rewrite (before_request_eq req w line Hline). cbn zeta.
    unfold after_connect.
    destruct (dict_get "userid" (session w)) as [uid|].
    + destruct (get_user db uid) as [u|e].
      * destruct (String.eqb (role u) "disabled"); cbn [snd trace];
          rewrite <- ?app_assoc; eexists; reflexivity.
      * cbn [snd trace]. rewrite <- !app_assoc. eexists; reflexivity.
    + cbn [snd trace]. rewrite <- !app_assoc. eexists; reflexivity.
  - intros req2 Hm Hp2 Hj Ha Hf. unfold request_log_line in *.
    rewrite Hm, Hp2, Hj, Ha, Hf. exact Hline.
Qed.


Lemma mask_all_absent {V : Type} (x : V) (ks : list string) (d : list (string * V)) :
  existsb (fun k => dict_has k d) ks = false -> mask_all x ks d = d.
Proof.
  unfold mask_all. induction ks as [|k ks IH]; cbn; [reflexivity|].
  intros H. apply orb_false_iff in H as [Hk Hks].
  rewrite (mask_absent x d k Hk). apply IH, Hks.
Qed.

Lemma redact_json_dict (d : list (string * json)) :
  dict_wf d ->
  redact_params (PJson (JDict d))
  = Ret (PJson (JDict (mask_all (JStr "X") secret_keys d))).
Proof.
  intros Hwf. destruct d as [|e d]; [reflexivity|].
  unfold redact_params. cbn [truthy json_truthy].
  rewrite (redact_loop_wrap (JStr "X") (fun d => PJson (JDict d))
             (fun d => PJson (JDict d))
             (fun _ _ => eq_refl) (fun _ => eq_refl) (fun _ _ => eq_refl)
             (fun _ => eq_refl) (e :: d) Hwf ltac:(discriminate)
             secret_keys (e :: d) None eq_refl (or_introl (conj eq_refl eq_refl))).
  cbn [bind].
  destruct (existsb (fun k => dict_has k (e :: d)) secret_keys) eqn:E.
  - cbn [truthy json_truthy].
    pose proof (mask_all_keys (JStr "X") secret_keys (e :: d)) as Hk.
    destruct (mask_all (JStr "X") secret_keys (e :: d)); [discriminate|reflexivity].
  - rewrite (mask_all_absent _ _ _ E). reflexivity.
Qed.

Lemma redact_multi (m : multidict) :
  dict_wf m ->
  redact_params (PImmMulti m)
  = Ret (if existsb (fun k => dict_has k m) secret_keys
         then PMulti (mask_all ["X"] secret_keys m)
         else PImmMulti m).
Proof.
  intros Hwf. destruct m as [|e m]; [reflexivity|].
  unfold redact_params. cbn [truthy].
  rewrite (redact_loop_wrap ["X"] PImmMulti PMulti
             (fun _ _ => eq_refl) (fun _ => eq_refl) (fun _ _ => eq_refl)
             (fun _ => eq_refl) (e :: m) Hwf ltac:(discriminate)
             secret_keys (e :: m) None eq_refl (or_introl (conj eq_refl eq_refl))).
  cbn [bind].
  destruct (existsb (fun k => dict_has k (e :: m)) secret_keys) eqn:E;
    [|reflexivity].
  cbn [truthy].
  pose proof (mask_all_keys ["X"] secret_keys (e :: m)) as Hk.
  destruct (mask_all ["X"] secret_keys (e :: m)); [discriminate|reflexivity].
Qed.







(* ------------------------------------------------------------------ *)
(** ** Further properties of the hooks *)

(** The request cycle when the before-request hook raises an exception
    that is no HTTP exception: a 500 response, logged as an error by
    [after_request], then [teardown]. *)
Lemma wsgi_app_hook_raises (route : option view) (kwargs : list (string * string))
  (req : Request) (w w1 : World) (e : exn) :
  before_request db str_float req (push_context w) = (Raise e, w1) ->
  (forall c, e <> HTTPException c) ->
  wsgi_app db str_float route kwargs req w
  = (mkResponse BDefault 500,
     snd (teardown str_float req (Some e)
            (logged (Log ERROR ("  500 " ++ method req ++ " " ++ url req)) w1))).
Proof.
  intros Hb He. unfold wsgi_app, full_dispatch_request, mbind at 1.
  rewrite Hb. unfold mbind at 1.
  destruct e; try (exfalso; eapply He; reflexivity);
    cbn [handle_user_exception]; unfold raise at 1;
    rewrite after_request_eq; reflexivity.
Qed.

(** The session user cannot be loaded: whenever the lookup raises, the
    hook clears the session and then raises [NameError] for the unbound
    name [webutil]; it returns no reply and writes no error entry. The
    request cycle answers 500 and still closes the connection. *)
Theorem unknown_uid_raises_name_error (req : Request) (w : World)
  (line uid : string) (e : exn) (route : option view)
  (kwargs : list (string * string)) :
  request_log_line str_float req = Ret line ->
  dict_get "userid" (session w) = Some uid ->
  get_user db uid = Raise e ->
  fst (before_request db str_float req w) = Raise (NameError "webutil")
  /\ session (snd (before_request db str_float req w)) = []
  /\ trace (snd (before_request db str_float req w))
     = (trace w ++ [Log INFO line; DbConnection; SessionClear])%list
  /\ fst (wsgi_app db str_float route kwargs req w) = mkResponse BDefault 500
  /\ session (snd (wsgi_app db str_float route kwargs req w)) = []
  /\ db_open (snd (wsgi_app db str_float route kwargs req w)) = false
  /\ view_calls (trace (snd (wsgi_app db str_float route kwargs req w)))
     = view_calls (trace w).
Proof.
  intros Hline Hsess Hget.
  assert (Hb : forall w', dict_get "userid" (session w') = Some uid ->
             before_request db str_float req w'
             = (Raise (NameError "webutil"),
                mkWorld [] (g (after_connect req line w'))
                        (trace (after_connect req line w') ++ [SessionClear])
                        true (clock w'))).
  { intros w' Hs. rewrite (before_request_eq req w' line Hline). cbn zeta.
    rewrite Hs, Hget. reflexivity. }
  rewrite (Hb w Hsess). cbn [fst snd session trace after_connect].
  split; [reflexivity|]. split; [reflexivity|].
  split; [rewrite <- !app_assoc; reflexivity|].
  rewrite (wsgi_app_hook_raises route kwargs req w _ _ (Hb (push_context w) Hsess))
    by discriminate.
  rewrite teardown_eq. unfold logged, after_connect, push_context.
  cbn [fst snd session g trace db_open clock g_db g_t1 empty_g].
  repeat split. rewrite !view_calls_app. cbn. lia.
Qed.

(** The level [after_request] logs at: an error for 400..599, nothing
    for 200..398, a warning for every other code, 399 included. *)
Theorem logmethod_cases (sc : Z) :
  (logmethod sc = Some ERROR <-> (400 <= sc <= 599)%Z)
  /\ (logmethod sc = None <-> (200 <= sc < 399)%Z)
  /\ (logmethod sc = Some WARNING <-> (sc < 200 \/ sc = 399 \/ 599 < sc)%Z).
Proof.
  unfold logmethod.
  destruct (Z.leb_spec 400 sc), (Z.leb_spec sc 599), (Z.leb_spec 200 sc),
    (Z.ltb_spec sc 399); cbn;
    repeat split; intros; try discriminate; try lia; try reflexivity.
Qed.

(** [after_request] hands the response back unchanged and appends at
    most one entry, which names the status, the method and the URL. *)
Theorem after_request_returns_response (req : Request) (resp : Response) (w : World) :
  fst (after_request req resp w) = Ret resp
  /\ (trace (snd (after_request req resp w)) = trace w
      \/ exists l, trace (snd (after_request req resp w))
                   = (trace w ++ [Log l ("  " ++ str_int (status_code resp) ++ " "
                                         ++ method req ++ " " ++ url req)])%list)
  /\ session (snd (after_request req resp w)) = session w
  /\ g (snd (after_request req resp w)) = g w
  /\ db_open (snd (after_request req resp w)) = db_open w.
Proof.
  rewrite after_request_eq. cbn [fst snd].
  destruct (logmethod (status_code resp)) as [l|]; cbn; repeat split; eauto.
Qed.

(** A user whose role is at least the required one reaches the wrapped
    function: the decorated view is the function itself, with no log
    entry of its own. *)
Theorem login_required_passes (req : Request) (func : view) (r : option string)
  (kwargs : list (string * string)) (w : World) (u : User) :
  g_MYSELF (g w) = Some (Some u) ->
  is_role_atleast db u r = true ->
  login_inner db req func r kwargs w = func kwargs w.
Proof.
  intros Hme Hok. unfold login_inner, mbind.
  rewrite (check_user_role_eq req r w (Some u) Hme), Hok. reflexivity.
Qed.

(** The hook changes the session on one path only, the one that clears
    it after a failed lookup. *)
Theorem before_request_session (req : Request) (w : World) :
  session (snd (before_request db str_float req w)) = session w
  \/ (session (snd (before_request db str_float req w)) = []
      /\ fst (before_request db str_float req w) = Raise (NameError "webutil")).
Proof.
  destruct (request_log_line str_float req) as [line|e] eqn:Hline.
  - rewrite (before_request_eq req w line Hline). cbn zeta.
    destruct (dict_get "userid" (session w)) as [uid|]; [|left; reflexivity].
    destruct (get_user db uid) as [u|e]; [|right; split; reflexivity].
    destruct (String.eqb (role u) "disabled"); left; reflexivity.
  - rewrite (before_request_raises_early req w e Hline). left. reflexivity.
Qed.

(** The timer is started only by a hook that lets the request through:
    when the hook returns a reply or raises, [g.t1] is left as it was, so
    [teardown] has nothing to measure for a rejected request. *)
Theorem before_request_timer (req : Request) (w : World) :
  fst (before_request db str_float req w) <> Ret None ->
  g_t1 (g (snd (before_request db str_float req w))) = g_t1 (g w).
Proof.
  destruct (request_log_line str_float req) as [line|e] eqn:Hline.
  - rewrite (before_request_eq req w line Hline). cbn zeta.
    destruct (dict_get "userid" (session w)) as [uid|];
      [|intros H; exfalso; apply H; reflexivity].
    destruct (get_user db uid) as [u|e]; [|reflexivity].
    destruct (String.eqb (role u) "disabled");
      [reflexivity|intros H; exfalso; apply H; reflexivity].
  - rewrite (before_request_raises_early req w e Hline). reflexivity.
Qed.

(** Once the request line is logged the hook opens the connection and
    stores the handle and the host before it looks at the session, so
    both are there on every later path, rejections included. *)
Theorem before_request_connects (req : Request) (w : World) (line : string) :
  request_log_line str_float req = Ret line ->
  db_open (snd (before_request db str_float req w)) = true
  /\ g_db (g (snd (before_request db str_float req w))) = true
  /\ g_HOST (g (snd (before_request db str_float req w)))
     = Some (match headers_get req "X-Real-Host" with Some h => h | None => "" end)
  /\ exists rest, trace (snd (before_request db str_float req w))
                  = (trace w ++ [Log INFO line; DbConnection] ++ rest)%list.
Proof.
  intros Hline. rewrite (before_request_eq req w line Hline). cbn zeta.
  unfold after_connect, host_of.
  destruct (dict_get "userid" (session w)) as [uid|].
  - destruct (get_user db uid) as [u|e].
    + destruct (String.eqb (role u) "disabled"); cbn [snd db_open g g_db g_HOST trace];
        repeat split; rewrite <- ?app_assoc.
      * eexists. reflexivity.
      * exists []. reflexivity.
    + cbn [snd db_open g g_db g_HOST trace]. repeat split.
      rewrite <- !app_assoc. eexists. reflexivity.
  - cbn [snd db_open g g_db g_HOST trace]. repeat split.
    rewrite <- !app_assoc. exists []. reflexivity.
Qed.

(* ------------------------------------------------------------------ *)
(** ** Further properties of the request log *)

Lemma is_secret_In (k : string) : is_secret k = true <-> In k secret_keys.
Proof.
  unfold is_secret. rewrite existsb_exists. split.
  - intros (k' & Hin & E). apply String.eqb_eq in E. subst. exact Hin.
  - intros H. exists k. split; [exact H|apply String.eqb_refl].
Qed.

Lemma mask_all_get_other {V : Type} (x : V) (d : list (string * V)) (k : string) :
  is_secret k = false ->
  dict_get k (mask_all x secret_keys d) = dict_get k d.
Proof.
  intros Hk. rewrite mask_all_map.
  induction d as [|[k' v] d IH]; [reflexivity|].
  cbn [map dict_get].
  destruct (String.eqb k' k) eqn:E.
  - apply String.eqb_eq in E. subst k'.
    unfold is_secret, secret_keys in Hk. cbn [existsb] in Hk.
    rewrite !orb_false_r in Hk.
    apply orb_false_iff in Hk as [E1 Hk]. apply orb_false_iff in Hk as [E2 E3].
    unfold secret_keys, mask_entry. cbn [fold_left fst].
    rewrite E1. cbn [fst]. rewrite E2. cbn [fst]. rewrite E3.
    rewrite String.eqb_refl. reflexivity.
  - assert (Hf : fst (fold_left (mask_entry x) secret_keys (k', v)) = k').
    { unfold secret_keys, mask_entry. cbn [fold_left fst].
      destruct (String.eqb k' "password"); cbn [fst];
        destruct (String.eqb k' "passwd"); cbn [fst];
        destruct (String.eqb k' "pwd"); reflexivity. }
    destruct (fold_left (mask_entry x) secret_keys (k', v)) as [k2 v2].
    cbn [fst] in Hf. subst k2. rewrite E. exact IH.
Qed.

(** A JSON object or a multi-dict with none of the three keys at its top
    level is logged as it is: whatever it holds deeper down, a nested
    "password" included, reaches the log. *)
Theorem params_without_secret_keys_unchanged :
  (forall d, existsb (fun k => dict_has k d) secret_keys = false ->
             redact_params (PJson (JDict d)) = Ret (PJson (JDict d)))
  /\ (forall m, existsb (fun k => dict_has k m) secret_keys = false ->
                redact_params (PImmMulti m) = Ret (PImmMulti m)).
Proof.
  split; intros d H; unfold secret_keys in H; cbn [existsb] in H;
    rewrite orb_false_r in H;
    apply orb_false_iff in H as [H1 H]; apply orb_false_iff in H as [H2 H3];
    unfold redact_params, secret_keys; destruct d as [|e d]; try reflexivity;
    cbn [truthy json_truthy redact_loop contains bind];
    rewrite H1; cbn [bind]; rewrite H2; cbn [bind]; rewrite H3; reflexivity.
Qed.

(** The redaction of a JSON object keeps the keys and their order, leaves
    the value under every other key alone, and puts 'X' under each of the
    three keys that is there. *)
Theorem redaction_keeps_other_entries (d : list (string * json)) :
  dict_wf d ->
  exists d', redact_params (PJson (JDict d)) = Ret (PJson (JDict d'))
             /\ map fst d' = map fst d
             /\ (forall k, is_secret k = false -> dict_get k d' = dict_get k d)
             /\ (forall k, is_secret k = true -> dict_has k d = true ->
                           dict_get k d' = Some (JStr "X")).
Proof.
  intros Hwf. exists (mask_all (JStr "X") secret_keys d).
  split; [apply redact_json_dict, Hwf|].
  split; [apply mask_all_keys|].
  split.
  - intros k Hk. apply mask_all_get_other, Hk.
  - intros k Hk Hhas. apply mask_all_get; [apply is_secret_In, Hk|exact Hhas].
Qed.

(** The redaction of a query string or form: with one of the three keys
    the logged object is a [MultiDict] in which every value of that key is
    replaced by the single value 'X'. *)
Theorem multidict_redaction (m : multidict) (k : string) :
  dict_wf m -> is_secret k = true -> dict_has k m = true ->
  exists m', redact_params (PImmMulti m) = Ret (PMulti m')
             /\ map fst m' = map fst m
             /\ dict_get k m' = Some ["X"]
             /\ (forall k', is_secret k' = false -> dict_get k' m' = dict_get k' m).
Proof.
  intros Hwf Hk Hhas. exists (mask_all ["X"] secret_keys m).
  rewrite (redact_multi m Hwf).
  assert (E : existsb (fun k => dict_has k m) secret_keys = true).
  { apply existsb_exists. exists k. split; [apply is_secret_In, Hk|exact Hhas]. }
  rewrite E. split; [reflexivity|].
  split; [apply mask_all_keys|].
  split; [apply mask_all_get; [apply is_secret_In, Hk|exact Hhas]|].
  intros k' Hk'. apply mask_all_get_other, Hk'.
Qed.

(** A JSON body that is a number other than zero or [true] cannot be
    searched for keys: the hook raises [TypeError] at its first [in] test,
    before it logs anything or opens the database; the request cycle
    answers 500 without calling the view. *)
Theorem scalar_json_body_crashes (req : Request) (w : World)
  (route : option view) (kwargs : list (string * string)) :
  match rjson req with
  | JInt z => z <> 0%Z
  | JFloat f => PrimFloat.eqb f 0%float = false
  | JBool b => b = true
  | _ => False
  end ->
  before_request db str_float req w = (Raise TypeError, w)
  /\ wsgi_app db str_float route kwargs req w
     = (mkResponse BDefault 500,
        logged (Log ERROR ("  500 " ++ method req ++ " " ++ url req)) (push_context w)).
Proof.
  intros Hj.
  assert (Hline : request_log_line str_float req = Raise TypeError).
  { assert (Ht : json_truthy (rjson req) = true).
    { destruct (rjson req) as [|b|z|f|s|l|d]; try contradiction; cbn.
      - exact Hj.
      - apply Z.eqb_neq in Hj. rewrite Hj. reflexivity.
      - rewrite Hj. reflexivity. }
    unfold request_log_line, logged_params_obj, py_or, redact_params.
    repeat (cbn [truthy]; rewrite Ht).
    destruct (rjson req) as [|b|z|f|s|l|d]; try contradiction; reflexivity. }
  split; [apply before_request_raises_early, Hline|].
  rewrite (wsgi_app_hook_raises route kwargs req w (push_context w) TypeError
             (before_request_raises_early req _ _ Hline)) by discriminate.
  rewrite teardown_eq. reflexivity.
Qed.

(** A JSON body that is a string in which one of the three key names
    occurs has no [copy()]: the hook raises [AttributeError]. A JSON array
    with one of the names as an element is copied, and the assignment to
    the copy raises [TypeError]. Neither request is logged. *)
Theorem json_string_or_array_naming_a_secret_crashes (req : Request) (w : World) :
  (forall s, rjson req = JStr s ->
             existsb (fun k => str_contains k s) secret_keys = true ->
             before_request db str_float req w = (Raise AttributeError, w))
  /\ (forall l, rjson req = JList l ->
                existsb (fun k => existsb (fun v => match v with
                                                 | JStr s => String.eqb s k
                                                 | _ => false
                                                 end) l) secret_keys = true ->
                before_request db str_float req w = (Raise TypeError, w)).
Proof.
  split.
  - intros s Hj H. apply before_request_raises_early.
    unfold request_log_line, logged_params_obj, py_or, redact_params. rewrite Hj.
    destruct s as [|c s]; [discriminate H|].
    cbn [truthy json_truthy String.eqb negb].
    unfold secret_keys in *. cbn [existsb redact_loop contains bind] in *.
    destruct (str_contains "password" (String c s)); [reflexivity|].
    destruct (str_contains "passwd" (String c s)); [reflexivity|].
    destruct (str_contains "pwd" (String c s)); [reflexivity|discriminate H].
  - intros l Hj H. apply before_request_raises_early.
    unfold request_log_line, logged_params_obj, py_or, redact_params. rewrite Hj.
    destruct l as [|v l]; [discriminate H|].
    cbn [truthy json_truthy].
    unfold secret_keys in *. cbn [existsb redact_loop contains bind] in *.
    destruct (_ || existsb _ l); [reflexivity|].
    destruct (_ || existsb _ l); [reflexivity|].
    destruct (_ || existsb _ l); [reflexivity|discriminate H].
Qed.

(** A request without parameters (no JSON, empty query string and form)
    is logged with an empty parameter string. *)
Theorem request_without_params_log_line (req : Request) :
  truthy (selected_params req) = false ->
  request_log_line str_float req
  = Ret (slice_to 2 (method req) ++ " " ++ path req ++ " ").
Proof.
  intros H. unfold request_log_line, logged_params_obj.
  fold (selected_params req). unfold redact_params. rewrite H. cbn [bind].
  unfold params_string. rewrite H. reflexivity.
Qed.

(** Only one of the three sources is logged: a JSON body that is true
    hides the query string and the form from the log line, and a query
    string hides the form. *)
Theorem json_body_takes_precedence (r1 r2 : Request) :
  method r1 = method r2 -> path r1 = path r2 ->
  (json_truthy (rjson r1) = true -> rjson r1 = rjson r2 ->
   request_log_line str_float r1 = request_log_line str_float r2)
  /\ (json_truthy (rjson r1) = false -> json_truthy (rjson r2) = false ->
      args r1 <> [] -> args r1 = args r2 ->
      request_log_line str_float r1 = request_log_line str_float r2).
Proof.
  intros Hm Hp. unfold request_log_line, logged_params_obj, py_or.
  rewrite Hm, Hp. split.
  - intros Ht Hj. rewrite <- Hj. repeat (cbn [truthy]; rewrite Ht). reflexivity.
  - intros Ht1 Ht2 Hne Ha. rewrite <- Ha. cbn [truthy]. rewrite Ht1, Ht2.
    destruct (args r1) as [|e a]; [congruence|]. reflexivity.
Qed.

(* ------------------------------------------------------------------ *)
(** ** Further properties of the request cycle *)

(** The request cycle when the hook lets the request through. *)
Lemma wsgi_app_dispatch (route : option view) (kwargs : list (string * string))
  (req : Request) (w w1 : World) :
  before_request db str_float req (push_context w) = (Ret None, w1) ->
  wsgi_app db str_float route kwargs req w
  = match dispatch_request route kwargs w1 with
    | (Ret v, w2) =>
        match make_response v with
        | Ret resp =>
            (resp, snd (teardown str_float req None (snd (after_request req resp w2))))
        | Raise e =>
            (mkResponse BDefault 500,
             snd (teardown str_float req (Some e)
                    (logged (Log ERROR ("  500 " ++ method req ++ " " ++ url req)) w2)))
        end
    | (Raise e, w2) =>
        match e with
        | HTTPException c =>
            let resp := if (c =? 404)%Z
                        then mkResponse (BJson [("err", "404: " ++ path req)]) 404
                        else mkResponse BDefault c in
            (resp, snd (teardown str_float req None (snd (after_request req resp w2))))
        | _ =>
            (mkResponse BDefault 500,
             snd (teardown str_float req (Some e)
                    (logged (Log ERROR ("  500 " ++ method req ++ " " ++ url req)) w2)))
        end
    end.
Proof.
  intros Hb. unfold wsgi_app, full_dispatch_request, mbind at 1. rewrite Hb.
  destruct (dispatch_request route kwargs w1) as [[v|e] w2].
  - unfold mbind, lift. destruct (make_response v) as [resp|e].
    + rewrite !after_request_eq. reflexivity.
    + rewrite !after_request_eq. reflexivity.
  - unfold mbind at 1.
    destruct e as [| |n| |c|s]; cbn [handle_user_exception]; unfold raise;
      try (rewrite !after_request_eq; reflexivity).
    destruct (c =? 404)%Z.
    + unfold page_not_found, mbind, ret, lift, make_response. cbn [body code].
      rewrite !after_request_eq. reflexivity.
    + unfold ret. rewrite !after_request_eq. reflexivity.
Qed.

Lemma before_request_anonymous (req : Request) (w : World) (line : string) :
  request_log_line str_float req = Ret line ->
  dict_get "userid" (session w) = None ->
  before_request db str_float req w
  = (Ret None,
     mkWorld (session w)
             (mkG true (Some (host_of req)) (Some None) (Some false) (Some None)
                  (Some (clock w)))
             ((trace w ++ [Log INFO line]) ++ [DbConnection]) true (clock w)).
Proof.
  intros Hline Hs. rewrite (before_request_eq req w line Hline). cbn zeta.
  rewrite Hs. reflexivity.
Qed.

(** A request without a user id in its session that reaches a view
    wrapped by [login_required] is answered 401 with the JSON error body,
    whatever the required role and whatever the wrapped function, which
    has no part in the outcome; the connection is closed at the end. *)
Theorem anonymous_request_gets_401 (req : Request) (w : World) (line : string)
  (func : view) (r : option string) (kwargs : list (string * string)) :
  request_log_line str_float req = Ret line ->
  dict_get "userid" (session w) = None ->
  fst (wsgi_app db str_float (Some (login_inner db req func r)) kwargs req w)
  = mkResponse (BJson [("err", "401: Unauthorized! " ++ method req ++ " "
                               ++ path req ++ " user=None")]) 401
  /\ db_open (snd (wsgi_app db str_float (Some (login_inner db req func r))
                     kwargs req w)) = false
  /\ (forall func',
         wsgi_app db str_float (Some (login_inner db req func' r)) kwargs req w
         = wsgi_app db str_float (Some (login_inner db req func r)) kwargs req w).
Proof.
  intros Hline Hs.
  pose (msg := "Unauthorized! " ++ method req ++ " " ++ path req ++ " user=None").
  assert (E : forall f,
             wsgi_app db str_float (Some (login_inner db req f r)) kwargs req w
             = (mkResponse (BJson [("err", "401: " ++ msg)]) 401,
                snd (teardown str_float req None
                       (logged (Log ERROR ("  401 " ++ method req ++ " " ++ url req))
                          (logged (Log WARNING msg)
                             (logged ViewCalled
                                (mkWorld (session w)
                                   (mkG true (Some (host_of req)) (Some None)
                                        (Some false) (Some None) (Some (clock w)))
                                   ((trace w ++ [Log INFO line]) ++ [DbConnection])
                                   true (clock w)))))))).
  { intros f.
    rewrite (wsgi_app_dispatch _ kwargs req w _
               (before_request_anonymous req (push_context w) line Hline Hs)).
    unfold dispatch_request, mbind at 1, emit at 1. unfold login_inner, mbind at 1.
    rewrite (check_user_role_eq req r _ None) by reflexivity. cbn iota zeta.
    unfold ret at 1. unfold make_response. cbn [body code err_reply].
    rewrite after_request_eq. reflexivity. }
  split; [rewrite E; reflexivity|].
  split.
  - rewrite E. cbn [snd].
    apply (proj2 (teardown_closes req None _)). reflexivity.
  - intros func'. rewrite !E. reflexivity.
Qed.

(** A request that matches no route still goes through the
    before-request hook; when the hook lets it through the answer is the
    404 reply of [page_not_found], whose body names the path, and
    [after_request] logs it as an error. *)
Theorem unmatched_route_gets_404 (req : Request) (w w1 : World)
  (kwargs : list (string * string)) :
  before_request db str_float req (push_context w) = (Ret None, w1) ->
  wsgi_app db str_float None kwargs req w
  = (mkResponse (BJson [("err", "404: " ++ path req)]) 404,
     snd (teardown str_float req None
            (logged (Log ERROR ("  404 " ++ method req ++ " " ++ url req)) w1))).
Proof.
  intros Hb. rewrite (wsgi_app_dispatch None kwargs req w w1 Hb).
  unfold dispatch_request, raise. cbn iota zeta.
  replace (404 =? 404)%Z with true by reflexivity.
  rewrite after_request_eq. reflexivity.
Qed.

(** A view that raises an exception other than an HTTP exception is
    answered 500; [after_request] logs the 500 as an error and [teardown]
    runs on the world the view left behind. *)
Theorem raising_view_gets_500 (req : Request) (w w1 w2 : World) (v : view)
  (kwargs : list (string * string)) (e : exn) :
  before_request db str_float req (push_context w) = (Ret None, w1) ->
  v kwargs (logged ViewCalled w1) = (Raise e, w2) ->
  (forall c, e <> HTTPException c) ->
  wsgi_app db str_float (Some v) kwargs req w
  = (mkResponse BDefault 500,
     snd (teardown str_float req (Some e)
            (logged (Log ERROR ("  500 " ++ method req ++ " " ++ url req)) w2))).
Proof.
  intros Hb Hv He. rewrite (wsgi_app_dispatch (Some v) kwargs req w w1 Hb).
  unfold dispatch_request, mbind, emit. fold (logged ViewCalled w1). rewrite Hv.
  destruct e; try reflexivity. exfalso. eapply He. reflexivity.
Qed.

(** What a hook that lets the request through leaves in [g]: no user,
    [ISLOGGED] false and [IS_SUPER_USER] [None] for a session without a
    user id; otherwise the user found, who is not disabled, [ISLOGGED]
    true and [IS_SUPER_USER] telling whether the role is "superuser". The
    timer is the clock in both cases. *)
Theorem before_request_context (req : Request) (w : World) :
  fst (before_request db str_float req w) = Ret None ->
  let g' := g (snd (before_request db str_float req w)) in
  g_t1 g' = Some (clock w)
  /\ match dict_get "userid" (session w) with
     | None =>
         g_MYSELF g' = Some None /\ g_ISLOGGED g' = Some false
         /\ g_IS_SUPER_USER g' = Some None
     | Some uid =>
         exists u, get_user db uid = Ret u
                   /\ role u <> "disabled"
                   /\ g_MYSELF g' = Some (Some u) /\ g_ISLOGGED g' = Some true
                   /\ g_IS_SUPER_USER g'
                      = Some (Some (String.eqb (role u) "superuser"))
     end.
Proof.
  destruct (request_log_line str_float req) as [line|e] eqn:Hline.
  - rewrite (before_request_eq req w line Hline). cbn zeta.
    destruct (dict_get "userid" (session w)) as [uid|].
    + destruct (get_user db uid) as [u|e]; [|discriminate].
      destruct (String.eqb (role u) "disabled") eqn:Hd; [discriminate|].
      intros _. cbn [snd g g_t1 g_MYSELF g_ISLOGGED g_IS_SUPER_USER].
      split; [reflexivity|]. exists u. repeat split.
      apply String.eqb_neq, Hd.
    + intros _. cbn. repeat split.
  - rewrite (before_request_raises_early req w e Hline). discriminate.
Qed.

(** The logging filter never drops a record and never touches its
    message. In local development the ip is "local"; otherwise it is the
    X-Real-IP header of the request, or the socket address when that
    header is missing or empty, and the empty string outside a request.
    The uid is the user id of the session, "anon" without one, and the
    worker mark outside a request. *)
Theorem log_filter_fields (ctx : option (Request * list (string * string)))
  (record : LogRecord) :
  fst (filter config ctx record) = true
  /\ rec_msg (snd (filter config ctx record)) = rec_msg record
  /\ (IS_LOCAL_DEV config = true ->
      rec_ip (snd (filter config ctx record)) = Some "local")
  /\ (ctx = None ->
      rec_uid (snd (filter config ctx record)) = "  -WORKER"
      /\ (IS_LOCAL_DEV config = false ->
          rec_ip (snd (filter config ctx record)) = Some ""))
  /\ (forall req sess, ctx = Some (req, sess) ->
      rec_uid (snd (filter config ctx record))
      = match dict_get "userid" sess with Some u => u | None => "anon" end
      /\ (IS_LOCAL_DEV config = false ->
          (forall ip, headers_get req "X-Real-IP" = Some ip -> ip <> "" ->
                      rec_ip (snd (filter config ctx record)) = Some ip)
          /\ (headers_get req "X-Real-IP" = None
              \/ headers_get req "X-Real-IP" = Some "" ->
              rec_ip (snd (filter config ctx record)) = remote_addr req))).
Proof.
  unfold filter.
  split; [destruct ctx as [[req sess]|]; reflexivity|].
  split; [destruct ctx as [[req sess]|]; reflexivity|].
  split; [intros H; destruct ctx as [[req sess]|]; cbn; rewrite H; reflexivity|].
  split.
  - intros ->. cbn. split; [reflexivity|]. intros ->. reflexivity.
  - intros req sess ->. cbn. split; [reflexivity|]. intros ->.
    unfold get_ip. split.
    + intros ip Hh Hne. rewrite Hh. apply String.eqb_neq in Hne. rewrite Hne.
      reflexivity.
    + intros [Hh|Hh]; rewrite Hh; reflexivity.
Qed.

(** A view that returns after more than a second on the clock is
    reported once: when the hook lets the request through and the view
    leaves the timer alone, [teardown] ends the trace of the cycle with the
    closing of the database and then, exactly when the clock moved on by
    more than 1.0 since the hook, one "SLOW!" warning with the path and the
    elapsed time. *)
Theorem slow_view_is_reported (req : Request) (w w1 w2 : World) (v : view)
  (kwargs : list (string * string)) (r : rv) (resp : Response) :
  before_request db str_float req (push_context w) = (Ret None, w1) ->
  v kwargs (logged ViewCalled w1) = (Ret r, w2) ->
  make_response r = Ret resp ->
  g_t1 (g w2) = g_t1 (g w1) ->
  let delta := PrimFloat.sub (clock w2) (clock w) in
  fst (wsgi_app db str_float (Some v) kwargs req w) = resp
  /\ trace (snd (wsgi_app db str_float (Some v) kwargs req w))
     = ((trace (snd (after_request req resp w2))
         ++ (if g_db (g w2) then [DbClose] else []))
        ++ (if PrimFloat.ltb 1%float delta
            then [Log WARNING ("SLOW! " ++ path req ++ " time=" ++ str_float delta)]
            else []))%list.
Proof.
  intros Hb Hv Hr Ht delta.
  assert (Ht1 : g_t1 (g w1) = Some (clock w)).
  { destruct (hook_starts_timer req (push_context w) w1 Hb) as [A _].
    exact A. }
  rewrite (wsgi_app_dispatch (Some v) kwargs req w w1 Hb).
  unfold dispatch_request, mbind, emit. fold (logged ViewCalled w1).
  rewrite Hv, Hr. cbn [fst snd]. split; [reflexivity|].
  rewrite teardown_eq, after_request_eq. cbn [snd].
  assert (Hg : forall w', g (match logmethod (status_code resp) with
                             | Some l => logged (Log l ("  " ++ str_int (status_code resp)
                                                       ++ " " ++ method req ++ " "
                                                       ++ url req)) w'
                             | None => w'
                             end) = g w'
                          /\ clock (match logmethod (status_code resp) with
                                    | Some l => logged (Log l ("  "
                                                  ++ str_int (status_code resp)
                                                  ++ " " ++ method req ++ " "
                                                  ++ url req)) w'
                                    | None => w'
                                    end) = clock w').
  { intros w'. destruct (logmethod (status_code resp)); split; reflexivity. }
  destruct (Hg w2) as [-> ->]. rewrite Ht, Ht1. fold delta.
  destruct (g_db (g w2)), (PrimFloat.ltb 1 delta);
    unfold logged; cbn [trace]; rewrite ?app_nil_r; reflexivity.
Qed.

End Properties.

(* ------------------------------------------------------------------ *)
(** * Concrete runs *)

(** C1. A session whose user id 99 is in no record: the lookup raises, the
    hook clears the session, and then the name [webutil], which the
    module never binds, raises [NameError]; no reply is returned and no
    "unknown uid" error is logged. *)
Theorem before_request_unknown_uid_raises :
  before_request sample_db sample_str_float
    (sample_request "GET" "/api/me" JNull) (sample_world [("userid", "99")])
  = (Raise (NameError "webutil"),
     mkWorld [] (mkG true (Some "") (Some None) None None None)
             [Log INFO "GE /api/me "; DbConnection; SessionClear] true 0%float).
Proof. vm_compute. reflexivity. Qed.

(** C2. The reply to a disabled account is a reply of the module with
    status 400 whose body is [{"err": "account disabled"}]: it lacks the
    "400: " that every other error reply of the module puts first. *)
Theorem disabled_reply_not_err_shape :
  exists rep w',
    before_request sample_db sample_str_float
      (sample_request "GET" "/api/me" JNull) (sample_world [("userid", "2")])
    = (Ret (Some rep), w')
    /\ body rep = [("err", "account disabled")]
    /\ code rep = 400%Z
    /\ ~ err_shape rep.
Proof.
  eexists. eexists. split; [vm_compute; reflexivity|].
  split; [reflexivity|]. split; [reflexivity|].
  intros [msg H]. cbn in H. discriminate H.
Qed.

(** C4. A disabled user who sends the JSON body 7: the hook raises
    [TypeError] at its first [in] test, before it looks the user up, and
    the request cycle answers 500 instead of 400. *)
Theorem disabled_user_scalar_json_gets_500 :
  before_request sample_db sample_str_float
    (sample_request "POST" "/api/movies" (JInt 7)) (sample_world [("userid", "2")])
  = (Raise TypeError, sample_world [("userid", "2")])
  /\ fst (wsgi_app sample_db sample_str_float (Some ok_view) []
            (sample_request "POST" "/api/movies" (JInt 7))
            (sample_world [("userid", "2")]))
     = mkResponse BDefault 500.
Proof. vm_compute. split; reflexivity. Qed.

(** C5. A password below the top level is logged in clear, and two
    payloads that differ only in it are logged as different lines; a
    password repeated under another key is logged there as well. *)
Theorem secret_values_reach_the_log :
  request_log_line sample_str_float (nested_signup "hunter2")
  = Ret "PO /api/signup {'user': {'password': 'hunter2'}}"
  /\ str_contains "hunter2" "PO /api/signup {'user': {'password': 'hunter2'}}" = true
  /\ request_log_line sample_str_float (nested_signup "hunter2")
     <> request_log_line sample_str_float (nested_signup "letmein")
  /\ has_key "password" (selected_params repeated_signup) = true
  /\ request_log_line sample_str_float repeated_signup
     = Ret "PO /api/signup {'password': 'X', 'password2': 'hunter2'}"
  /\ str_contains "hunter2"
       "PO /api/signup {'password': 'X', 'password2': 'hunter2'}" = true.
Proof.
  split; [vm_compute; reflexivity|]. split; [vm_compute; reflexivity|].
  split; [vm_compute; discriminate|]. split; [reflexivity|].
  split; vm_compute; reflexivity.
Qed.

(** C9, counterexample. With the default of [json.JSONEncoder], which
    raises [TypeError], [default] of an absent timestamp raises too: it
    does not return [None]. *)
Lemma default_of_none_is_not_null :
  default json_default_raises ONone = Raise TypeError
  /\ default json_default_raises ONone <> Ret ENone.
Proof. split; [reflexivity|discriminate]. Qed.

Lemma login_required_rejects_witness :
  exists msg,
    login_inner sample_db (sample_request "GET" "/api/users" JNull) ok_view
                (Some "superuser") []
                (mkWorld [] (mkG true (Some "") (Some None) (Some false) (Some None) None)
                         [] true 0%float)
    = (Ret (RvTuple (err_reply msg 401)),
       logged (Log WARNING msg)
              (mkWorld [] (mkG true (Some "") (Some None) (Some false) (Some None) None)
                       [] true 0%float))
    /\ make_response (RvTuple (err_reply msg 401))
       = Ret (mkResponse (BJson [("err", "401: " ++ msg)]) 401).
Proof.
  apply (login_required_rejects sample_db (sample_request "GET" "/api/users" JNull)
           ok_view (Some "superuser") []
           (mkWorld [] (mkG true (Some "") (Some None) (Some false) (Some None) None)
                    [] true 0%float)
           None).
  - reflexivity.
  - left. reflexivity.
  - reflexivity.
Defined.


Lemma teardown_always_closes_db_witness :
  db_open (snd (wsgi_app sample_db sample_str_float (Some failing_view) []
                  (sample_request "GET" "/api/list" JNull) (sample_world [])))
  = false.
Proof.
  apply (teardown_always_closes_db sample_db sample_str_float (Some failing_view) []
           (sample_request "GET" "/api/list" JNull) (sample_world [])).
  vm_compute. reflexivity.
Defined.

Lemma slow_request_warning_witness :
  (forall w0 w1,
      before_request sample_db sample_str_float
        (sample_request "GET" "/api/list" JNull) w0 = (Ret None, w1) ->
      g_t1 (g w1) = Some (clock w0) /\ clock w1 = clock w0)
  /\ trace (snd (teardown sample_str_float (sample_request "GET" "/api/list" JNull)
                   None slow_world))
     = ((trace slow_world ++ (if g_db (g slow_world) then [DbClose] else []))
        ++ (if PrimFloat.ltb 1%float (PrimFloat.sub (clock slow_world) 0%float)
            then [Log WARNING ("SLOW! " ++ path (sample_request "GET" "/api/list" JNull)
                               ++ " time="
                               ++ sample_str_float
                                    (PrimFloat.sub (clock slow_world) 0%float))]
            else []))%list.
Proof.
  apply (slow_request_warning sample_db sample_str_float
           (sample_request "GET" "/api/list" JNull) None slow_world 0%float).
  reflexivity.
Defined.

Lemma request_log_line_shape_witness :
  exists p,
    logged_params_obj (rjson long_search) (args long_search) (form long_search) = Ret p
    /\ String.length (py_str sample_str_float p) = 1209
    /\ "PO /api/search {'q': '" ++ str_repeat 993 "x"
       = slice_to 2 (method long_search) ++ " " ++ path long_search ++ " "
         ++ slice_to 1000 (if truthy p then py_str sample_str_float p else "")
    /\ String.length (slice_to 1000 (if truthy p then py_str sample_str_float p
                                     else "")) = 1000.
Proof.
  destruct (request_log_line_shape sample_db sample_str_float long_search
              ("PO /api/search {'q': '" ++ str_repeat 993 "x") (sample_world [])
              ltac:(vm_compute; reflexivity))
    as (p & Hp & Hl & Hlen & _).
  exists p. vm_compute in Hp. injection Hp as <-.
  split; [reflexivity|]. split; [vm_compute; reflexivity|].
  split; [exact Hl|]. vm_compute. reflexivity.
Defined.


(** Witnesses of the further properties. *)

Lemma unknown_uid_raises_name_error_witness :
  fst (before_request sample_db sample_str_float
         (sample_request "GET" "/api/me" JNull) (sample_world [("userid", "99")]))
  = Raise (NameError "webutil")
  /\ fst (wsgi_app sample_db sample_str_float (Some ok_view) []
            (sample_request "GET" "/api/me" JNull) (sample_world [("userid", "99")]))
     = mkResponse BDefault 500.
Proof.
  destruct (unknown_uid_raises_name_error sample_db sample_str_float
              (sample_request "GET" "/api/me" JNull) (sample_world [("userid", "99")])
              "GE /api/me " "99" LookupFailed (Some ok_view) []
              ltac:(vm_compute; reflexivity) eq_refl eq_refl)
    as (A & _ & _ & B & _).
  split; assumption.
Defined.

Lemma login_required_passes_witness :
  login_inner sample_db (sample_request "GET" "/api/users" JNull) ok_view
              (Some "superuser") [] logged_in_world
  = ok_view [] logged_in_world.
Proof.
  apply (login_required_passes sample_db (sample_request "GET" "/api/users" JNull)
           ok_view (Some "superuser") [] logged_in_world
           (mkUser "superuser" "<User 3>")); reflexivity.
Defined.

Lemma before_request_timer_witness :
  g_t1 (g (snd (before_request sample_db sample_str_float
                  (sample_request "GET" "/api/me" JNull)
                  (sample_world [("userid", "2")]))))
  = g_t1 (g (sample_world [("userid", "2")])).
Proof.
  apply (before_request_timer sample_db sample_str_float
           (sample_request "GET" "/api/me" JNull) (sample_world [("userid", "2")])).
  vm_compute. discriminate.
Defined.

Lemma before_request_connects_witness :
  db_open (snd (before_request sample_db sample_str_float
                  (sample_request "GET" "/api/me" JNull)
                  (sample_world [("userid", "2")]))) = true.
Proof.
  apply (before_request_connects sample_db sample_str_float
           (sample_request "GET" "/api/me" JNull) (sample_world [("userid", "2")])
           "GE /api/me ").
  vm_compute. reflexivity.
Defined.

(** A password one level down is logged as it came. *)
Lemma params_without_secret_keys_unchanged_witness :
  redact_params (PJson (JDict [("user", JDict [("password", JStr "hunter2")])]))
  = Ret (PJson (JDict [("user", JDict [("password", JStr "hunter2")])])).
Proof.
  apply (proj1 params_without_secret_keys_unchanged). reflexivity.
Defined.

Lemma sample_login_wf :
  dict_wf [("email", JStr "a@example.org"); ("password", JStr "hunter2")].
Proof.
  unfold dict_wf. cbn. apply NoDup_cons; [|apply NoDup_cons; [|apply NoDup_nil]].
  - intros [H|[]]. discriminate H.
  - intros [].
Defined.

Lemma redaction_keeps_other_entries_witness :
  exists d',
    redact_params (PJson (JDict [("email", JStr "a@example.org");
                                 ("password", JStr "hunter2")]))
    = Ret (PJson (JDict d'))
    /\ map fst d' = ["email"; "password"]
    /\ dict_get "email" d' = Some (JStr "a@example.org")
    /\ dict_get "password" d' = Some (JStr "X").
Proof.
  destruct (redaction_keeps_other_entries
              [("email", JStr "a@example.org"); ("password", JStr "hunter2")]
              sample_login_wf) as (d' & E & K & O & S).
  exists d'. split; [exact E|]. split; [exact K|]. split.
  - apply (O "email"). reflexivity.
  - apply (S "password"); reflexivity.
Defined.

Lemma sample_query_wf : dict_wf [("user", ["ann"]); ("pwd", ["a"; "b"])].
Proof.
  unfold dict_wf. cbn. apply NoDup_cons; [|apply NoDup_cons; [|apply NoDup_nil]].
  - intros [H|[]]. discriminate H.
  - intros [].
Defined.

Lemma multidict_redaction_witness :
  exists m',
    redact_params (PImmMulti [("user", ["ann"]); ("pwd", ["a"; "b"])]) = Ret (PMulti m')
    /\ dict_get "pwd" m' = Some ["X"].
Proof.
  destruct (multidict_redaction [("user", ["ann"]); ("pwd", ["a"; "b"])] "pwd"
              sample_query_wf eq_refl eq_refl) as (m' & E & _ & X & _).
  exists m'. split; assumption.
Defined.

Lemma scalar_json_body_crashes_witness :
  before_request sample_db sample_str_float
    (sample_request "POST" "/api/movies" (JInt 7)) (sample_world [])
  = (Raise TypeError, sample_world [])
  /\ fst (wsgi_app sample_db sample_str_float (Some ok_view) []
            (sample_request "POST" "/api/movies" (JInt 7)) (sample_world []))
     = mkResponse BDefault 500.
Proof.
  destruct (scalar_json_body_crashes sample_db sample_str_float
              (sample_request "POST" "/api/movies" (JInt 7)) (sample_world [])
              (Some ok_view) [] ltac:(cbn; discriminate)) as [A B].
  split; [exact A|]. rewrite B. reflexivity.
Defined.

Lemma json_string_or_array_naming_a_secret_crashes_witness :
  before_request sample_db sample_str_float
    (sample_request "POST" "/api/note" (JStr "my pwd is hunter2")) (sample_world [])
  = (Raise AttributeError, sample_world [])
  /\ before_request sample_db sample_str_float
       (sample_request "POST" "/api/note" (JList [JStr "password"; JStr "hunter2"]))
       (sample_world [])
     = (Raise TypeError, sample_world []).
Proof.
  split.
  - apply (proj1 (json_string_or_array_naming_a_secret_crashes sample_db
                    sample_str_float
                    (sample_request "POST" "/api/note" (JStr "my pwd is hunter2"))
                    (sample_world []))
             "my pwd is hunter2" eq_refl).
    vm_compute. reflexivity.
  - apply (proj2 (json_string_or_array_naming_a_secret_crashes sample_db
                    sample_str_float
                    (sample_request "POST" "/api/note"
                       (JList [JStr "password"; JStr "hunter2"]))
                    (sample_world []))
             [JStr "password"; JStr "hunter2"] eq_refl).
    vm_compute. reflexivity.
Defined.

Lemma request_without_params_log_line_witness :
  request_log_line sample_str_float (sample_request "GET" "/api/list" JNull)
  = Ret "GE /api/list ".
Proof.
  apply (request_without_params_log_line sample_str_float
           (sample_request "GET" "/api/list" JNull)).
  reflexivity.
Defined.

(** A password in the query string is not logged at all when the request
    has a JSON body. *)
Lemma json_body_takes_precedence_witness :
  request_log_line sample_str_float
    (mkRequest "POST" "/api/login" "http://localhost/api/login?pwd=hunter2"
               (JDict [("remember", JBool true)]) [("pwd", ["hunter2"])] [] []
               (Some "127.0.0.1"))
  = request_log_line sample_str_float
      (mkRequest "POST" "/api/login" "http://localhost/api/login"
                 (JDict [("remember", JBool true)]) [] [] [] (Some "127.0.0.1")).
Proof.
  apply (proj1 (json_body_takes_precedence sample_str_float
                  (mkRequest "POST" "/api/login"
                     "http://localhost/api/login?pwd=hunter2"
                     (JDict [("remember", JBool true)]) [("pwd", ["hunter2"])] [] []
                     (Some "127.0.0.1"))
                  (mkRequest "POST" "/api/login" "http://localhost/api/login"
                     (JDict [("remember", JBool true)]) [] [] [] (Some "127.0.0.1"))
                  eq_refl eq_refl));
    reflexivity.
Defined.

Lemma anonymous_request_gets_401_witness :
  fst (wsgi_app sample_db sample_str_float
         (Some (login_inner sample_db (sample_request "GET" "/api/users" JNull)
                  ok_view None))
         [] (sample_request "GET" "/api/users" JNull) (sample_world []))
  = mkResponse (BJson [("err", "401: Unauthorized! GET /api/users user=None")]) 401.
Proof.
  apply (proj1 (anonymous_request_gets_401 sample_db sample_str_float
                  (sample_request "GET" "/api/users" JNull) (sample_world [])
                  "GE /api/users " ok_view None []
                  ltac:(vm_compute; reflexivity) eq_refl)).
Defined.

Lemma unmatched_route_gets_404_witness :
  fst (wsgi_app sample_db sample_str_float None []
         (sample_request "GET" "/nowhere" JNull) (sample_world []))
  = mkResponse (BJson [("err", "404: /nowhere")]) 404.
Proof.
  rewrite (unmatched_route_gets_404 sample_db sample_str_float
             (sample_request "GET" "/nowhere" JNull) (sample_world [])
             (passed_world [] "GE /nowhere ") []
             ltac:(vm_compute; reflexivity)).
  reflexivity.
Defined.

Lemma raising_view_gets_500_witness :
  fst (wsgi_app sample_db sample_str_float (Some failing_view) []
         (sample_request "GET" "/api/list" JNull) (sample_world []))
  = mkResponse BDefault 500.
Proof.
  rewrite (raising_view_gets_500 sample_db sample_str_float
             (sample_request "GET" "/api/list" JNull) (sample_world [])
             (passed_world [] "GE /api/list ")
             (logged ViewCalled (passed_world [] "GE /api/list "))
             failing_view [] (HandlerError "boom")
             ltac:(vm_compute; reflexivity) eq_refl ltac:(discriminate)).
  reflexivity.
Defined.

Lemma before_request_context_witness :
  g_IS_SUPER_USER (g (snd (before_request sample_db sample_str_float
                             (sample_request "GET" "/api/me" JNull)
                             (sample_world [("userid", "3")]))))
  = Some (Some true).
Proof.
  destruct (before_request_context sample_db sample_str_float
              (sample_request "GET" "/api/me" JNull) (sample_world [("userid", "3")])
              ltac:(vm_compute; reflexivity)) as (_ & u & Hu & _ & _ & _ & S).
  rewrite S. cbn in Hu. injection Hu as <-. reflexivity.
Defined.

Lemma slow_view_is_reported_witness :
  trace (snd (wsgi_app sample_db sample_str_float (Some slow_view) []
                (sample_request "GET" "/api/report" JNull) (sample_world [])))
  = [Log INFO "GE /api/report "; DbConnection; ViewCalled; DbClose;
     Log WARNING "SLOW! /api/report time=2.0"].
Proof.
  rewrite (proj2 (slow_view_is_reported sample_db sample_str_float
                    (sample_request "GET" "/api/report" JNull) (sample_world [])
                    (passed_world [] "GE /api/report ")
                    (mkWorld [] (g (passed_world [] "GE /api/report "))
                             [Log INFO "GE /api/report "; DbConnection; ViewCalled]
                             true 2%float)
                    slow_view [] (RvStr "done") (mkResponse (BText "done") 200)
                    ltac:(vm_compute; reflexivity) eq_refl eq_refl eq_refl)).
  vm_compute. reflexivity.
Defined.
